(** * imagelist2lmdb: the image-list to LMDB ingestion pipeline

    A shallow embedding of [src/utils/imagelist2lmdb.py] and the properties
    of its manifest loader ([ImageListRaw.__init__]), sample resolver
    ([ImageListRaw.__getitem__]) and batched store writer ([list2lmdb]).

    Modelling conventions.
    - A Python [bytes] object and a Python [str] are both a [string] (a list
      of 8-bit characters).
    - [astype("int")] produces NumPy's 64-bit signed integers: a label is a
      [Z] inside the int64 range and [+ 1] on it wraps around ([wrap64]).
    - A Python exception is a value of [exn]; pure code that may raise lives
      in [result], code that also talks to the file system or to LMDB lives
      in the monad [M], whose state is the chronological log of the effects
      performed so far.
    - A [dict] is a [gmap]. *)

From Stdlib Require Import ZArith Lia Ascii String DecimalString DecimalNat.
From stdpp Require Import gmap strings list fin_maps.

Open Scope string_scope.

(** ** Python exceptions and the pure error monad *)

Inductive exn : Type :=
| KeyError (k : string)          (* dict lookup of an unknown attribute *)
| EmptyDataError                 (* pd.read_csv on a file without rows *)
| IndexError                     (* column / item index out of bounds *)
| OverflowError                  (* astype("int") of a value outside int64 *)
| ValueError                     (* np.max of a zero-size array *)
| AttributeError                 (* self.masks was never assigned *)
| UnboundLocalError              (* local variable mask was never assigned *)
| FileNotFoundError (p : string) (* open(p, "rb") *)
| ZeroDivisionError              (* idx % 0 *)
| LmdbError.                     (* any error raised by the lmdb binding *)

Inductive result (A : Type) : Type :=
| OK (a : A)
| Raise (e : exn).
Arguments OK {A} a.
Arguments Raise {A} e.

Definition rbind {A B} (r : result A) (k : A -> result B) : result B :=
  match r with
  | OK a => k a
  | Raise e => Raise e
  end.

Fixpoint rmap_list {A B} (f : A -> result B) (l : list A) : result (list B) :=
  match l with
  | [] => OK []
  | x :: l' =>
      rbind (f x) (fun y => rbind (rmap_list f l') (fun ys => OK (y :: ys)))
  end.

(** ** Python string helpers *)

Module Py.

(** [s[:n]] for [n >= 0]. *)
Fixpoint take (n : nat) (s : string) : string :=
  match n, s with
  | S n', String c s' => String c (take n' s')
  | _, _ => ""
  end.

(** [s[n:]] for [n >= 0]. *)
Fixpoint drop (n : nat) (s : string) : string :=
  match n, s with
  | S n', String _ s' => drop n' s'
  | _, _ => s
  end.

(** [s[:-k]] for [k > 0]: everything but the last [k] characters, the
    empty string when [s] has at most [k] of them. *)
Definition slice_until_neg (k : nat) (s : string) : string :=
  take (String.length s - k) s.

(** [s.startswith("/")]. *)
Definition startswith_sep (s : string) : bool :=
  match s with
  | String c _ => Ascii.eqb c "/"%char
  | EmptyString => false
  end.

(** [s.endswith("/")]. *)
Fixpoint endswith_sep (s : string) : bool :=
  match s with
  | EmptyString => false
  | String c EmptyString => Ascii.eqb c "/"%char
  | String _ s' => endswith_sep s'
  end.

(** [posixpath.join(a, b)] with one component. *)
Definition path_join (a b : string) : string :=
  if startswith_sep b then b
  else if String.eqb a "" || endswith_sep a then a ++ b
  else a ++ "/" ++ b.

(** ["{}".format(idx).encode("ascii")]: the decimal digits of [idx]. *)
Definition format_idx (idx : nat) : string :=
  NilZero.string_of_uint (Nat.to_uint idx).

End Py.

(** ** NumPy's 64-bit integers *)

Definition int64_min : Z := - 2 ^ 63.
Definition int64_max : Z := 2 ^ 63 - 1.

Definition in_int64 (z : Z) : bool := (int64_min <=? z)%Z && (z <=? int64_max)%Z.

(** Two's complement reduction of an integer to 64 bits. *)
Definition wrap64 (z : Z) : Z := ((z + 2 ^ 63) mod 2 ^ 64 - 2 ^ 63)%Z.

(** [MAX_CLASS] holds integers and [float("Inf")]. *)
Inductive max_label : Type :=
| Fin (k : Z)
| Inf.

(** [label <= max_class] as NumPy evaluates it. *)
Definition le_max (label : Z) (m : max_label) : bool :=
  match m with
  | Fin k => (label <=? k)%Z
  | Inf => true
  end.

(** [np.max] of a one-dimensional integer array. *)
Definition np_max (a : list Z) : result Z :=
  match a with
  | [] => Raise ValueError
  | x :: a' => OK (fold_left Z.max a' x)
  end.

(** ** The manifest *)

(** One row of the table that [pd.read_csv(image_list, delimiter=" ",
    header=None)] followed by [np.asarray] yields: column 0 is the sample
    reference, columns 1, 2, ... are the integer cells that follow it.
    This is the table of a manifest whose lines all have the same number
    of fields, text in the first one and integers in the others. What
    pandas makes of other files (lines of unequal length, a first column
    that it reads as numbers, fields that are not integers) is outside
    the model. *)
Record row : Type := Row { sample_ref : string; cells : list Z }.

(** [pd.read_csv] on such a manifest: a file without any row is
    rejected, any other is delivered as it is. *)
Definition read_csv (image_list : list row) : result (list row) :=
  match image_list with
  | [] => Raise EmptyDataError
  | _ => OK image_list
  end.

(** The cell of column [attribute] (>= 1) converted by [astype("int")].
    Column 0 holds text, and a table too narrow for the column (its rows
    have equal length, so the cell is missing in all of them) is rejected
    by NumPy's indexing. *)
Definition cell_int (attribute : nat) (r : row) : result Z :=
  match attribute with
  | O => Raise ValueError
  | S j =>
      match cells r !! j with
      | None => Raise IndexError
      | Some z => if in_int64 z then OK z else Raise OverflowError
      end
  end.

(** [image_names[:, attribute].astype("int")]. *)
Definition column_int (attribute : nat) (image_names : list row) : result (list Z) :=
  rmap_list (cell_int attribute) image_names.

(** [image_names[mask]] for a boolean mask of the same length. *)
Fixpoint boolean_index (image_names : list row) (mask : list bool) : list row :=
  match image_names, mask with
  | r :: rs, b :: bs => if b then r :: boolean_index rs bs else boolean_index rs bs
  | _, _ => []
  end.

(** ** ImageListRaw *)

Definition ATTRIBUTES : gmap string nat :=
  list_to_map [("race", 1%nat); ("gender", 2%nat); ("age", 3%nat); ("recognition", 1%nat)].

Definition MAX_CLASS : gmap string max_label :=
  list_to_map [("race", Fin 4); ("gender", Fin 1); ("age", Fin 100); ("recognition", Inf)].

(** The attribute [self.masks]: never assigned, [None], or a list. *)
Inductive masks_attr : Type :=
| MasksUnset
| MasksNone
| MasksList (l : list string).

Record ImageListRaw : Type := {
  samples : list string;
  masks : masks_attr;
  targets : list Z;
  classnum : Z
}.

Definition dict_get {V} (d : gmap string V) (k : string) : result V :=
  match d !! k with
  | Some v => OK v
  | None => Raise (KeyError k)
  end.

(** The rows kept by the two range filters of [__init__]. *)
Definition filter_rows (attribute : nat) (max_class : max_label)
    (image_names : list row) : result (list row) :=
  rbind (column_int attribute image_names) (fun col =>
  let image_names := boolean_index image_names (map (fun z => (0 <=? z)%Z) col) in
  rbind (column_int attribute image_names) (fun col =>
  OK (boolean_index image_names (map (fun z => le_max z max_class) col)))).

Definition ImageListRaw_init (attribute_name : string)
    (source mask_source : option string) (image_list : list row)
    : result ImageListRaw :=
  rbind (dict_get ATTRIBUTES attribute_name) (fun attribute =>
  rbind (dict_get MAX_CLASS attribute_name) (fun max_class =>
  rbind (read_csv image_list) (fun image_names =>
  rbind (filter_rows attribute max_class image_names) (fun image_names =>
  let '(samples, masks) :=
    match source with
    | Some source =>
        (map (fun image_name => Py.path_join source image_name)
             (map sample_ref image_names),
         match mask_source with
         | Some mask_source =>
             let masks :=
               map (fun image_name => Py.path_join mask_source image_name)
                   (map sample_ref image_names) in
             MasksList
               (map (fun image_name => Py.slice_until_neg 4 image_name ++ "_mask.png")
                    masks)
         | None => MasksNone
         end)
    | None => (map sample_ref image_names, MasksUnset)
    end in
  rbind (column_int attribute image_names) (fun targets =>
  rbind (np_max targets) (fun m =>
  let classnum :=
    if String.eqb attribute_name "age" then m else wrap64 (m + 1) in
  OK {| samples := samples; masks := masks;
        targets := targets; classnum := classnum |})))))).

Definition ImageListRaw_len (self : ImageListRaw) : nat := length (samples self).

(** ** Effects: the file system and the LMDB environment *)

(** The objects handed to [dumps_pyarrow]. *)
Inductive pyobj : Type :=
| PyTuple3 (image : string) (label : Z) (mask : string)
| PyTuple2 (image : string) (label : Z)
| PyList (keys : list string)
| PyInt (n : Z).

(** What a run does to the outside world, in the order it does it.
    [EPut key obj] is [txn.put(key, dumps_pyarrow(obj))]. *)
Inductive event : Type :=
| ERead (p : string)
| EOpen (map_size : Z)
| EBegin
| EPut (key : string) (obj : pyobj)
| ECommit
| EAbort
| ESync
| EClose.

(** A computation reads the log of the events so far, extends it, and
    returns a value or raises; the log survives an exception. *)
Definition M (A : Type) : Type := list event -> list event * result A.

Definition ret {A} (a : A) : M A := fun log => (log, OK a).

Definition raise {A} (e : exn) : M A := fun log => (log, Raise e).

Definition bind {A B} (m : M A) (k : A -> M B) : M B :=
  fun log =>
    match m log with
    | (log', OK a) => k a log'
    | (log', Raise e) => (log', Raise e)
    end.

Definition lift {A} (r : result A) : M A := fun log => (log, r).

Notation "'let*' x ':=' m 'in' k" := (bind m (fun x => k))
  (at level 10, x name, m at level 200, k at level 200).
Notation "'run' m 'then' k" := (bind m (fun _ => k))
  (at level 10, m at level 200, k at level 200).

(** [l[index]] on a Python list. *)
Definition list_get {A} (l : list A) (index : nat) : result A :=
  match l !! index with
  | Some a => OK a
  | None => Raise IndexError
  end.

Definition META_KEYS : list string := ["__keys__"; "__len__"; "__classnum__"].

Section Pipeline.

(** The contents of the readable files, by path. *)
Variable files : string -> option string.

(** Whether the LMDB binding carries out an operation, given everything
    that happened before; when it does not, it raises. *)
Variable lmdb_ok : list event -> event -> bool.

(** [with open(p, "rb") as f: f.read()]. *)
Definition read_file (p : string) : M string :=
  fun log =>
    match files p with
    | Some content => ((log ++ [ERead p])%list, OK content)
    | None => (log, Raise (FileNotFoundError p))
    end.

(** One call into the LMDB binding. *)
Definition lmdb (e : event) : M unit :=
  fun log =>
    if lmdb_ok log e then ((log ++ [e])%list, OK tt) else (log, Raise LmdbError).

(** [ImageListRaw.__getitem__]. The local variable [mask] is bound only
    inside the [if]: [None] below is the unbound variable, and reading it
    in the [return] raises. *)
Definition ImageListRaw_getitem (self : ImageListRaw) (index : nat)
    : M (string * Z * option string) :=
  let* p := lift (list_get (samples self) index) in
  let* img := read_file p in
  let* mask :=
    match masks self with
    | MasksUnset => raise AttributeError
    | MasksNone => ret None
    | MasksList l =>
        let* mp := lift (list_get l index) in
        let* mask := read_file mp in
        ret (Some (Some mask))
    end in
  let* label := lift (list_get (targets self) index) in
  match mask with
  | Some mask => ret (img, label, mask)
  | None => raise UnboundLocalError
  end.

(** [txn.put] of one dataset item under its sequential key: the
    [if mask is not None] of the loop body. *)
Definition put_record (idx : nat) (data : string * Z * option string) : M unit :=
  let '(image, label, mask) := data in
  match mask with
  | Some mask => lmdb (EPut (Py.format_idx idx) (PyTuple3 image label mask))
  | None => lmdb (EPut (Py.format_idx idx) (PyTuple2 image label))
  end.

(** [if idx % write_frequency == 0: txn.commit(); txn = db.begin(write=True)]. *)
Definition maybe_commit (write_frequency : Z) (idx : nat) : M unit :=
  if (write_frequency =? 0)%Z then raise ZeroDivisionError
  else if (Z.of_nat idx mod write_frequency =? 0)%Z
       then run lmdb ECommit then lmdb EBegin
       else ret tt.

(** The body of [for idx, data in enumerate(data_loader)] over the
    indices still to come. [CustomRawLoader] is a [DataLoader] with batch
    size 1, no shuffling and the identity as [collate_fn], so [data[0]] is
    [dataset[idx]], delivered in index order. *)
Fixpoint write_loop (dataset : ImageListRaw) (write_frequency : Z)
    (idxs : list nat) : M unit :=
  match idxs with
  | [] => ret tt
  | idx :: rest =>
      let* data := ImageListRaw_getitem dataset idx in
      run put_record idx data then
      run maybe_commit write_frequency idx then
      write_loop dataset write_frequency rest
  end.

(** [with db.begin(write=True) as txn: body]: commit when the body
    returns, abort and re-raise when it raises. *)
Definition with_txn (body : M unit) : M unit :=
  run lmdb EBegin then
  fun log =>
    match body log with
    | (log', OK _) => lmdb ECommit log'
    | (log', Raise e) => ((log' ++ [EAbort])%list, Raise e)
    end.

(** [[ "{}".format(k).encode("ascii") for k in range(idx + 1) ]] with the
    last value of the loop variable [idx], which is unbound when the loop
    body never ran. *)
Definition key_list (dataset : ImageListRaw) : M (list string) :=
  match ImageListRaw_len dataset with
  | O => raise UnboundLocalError
  | S idx => ret (map Py.format_idx (seq 0 (idx + 1)))
  end.

Definition write_meta (dataset : ImageListRaw) (keys : list string) : M unit :=
  with_txn
    (run lmdb (EPut "__keys__" (PyList keys)) then
     run lmdb (EPut "__len__" (PyInt (Z.of_nat (length keys)))) then
     lmdb (EPut "__classnum__" (PyInt (classnum dataset)))).

(** [map_size] given to [lmdb.open]. *)
Definition map_size (dataset : ImageListRaw) (mask_source : option string) : Z :=
  let image_size := 224%Z in
  let size := (Z.of_nat (ImageListRaw_len dataset) * image_size * image_size * 3)%Z in
  let size := match mask_source with Some _ => (size * 2)%Z | None => size end in
  (size * 2)%Z.

(** Everything [list2lmdb] does once the dataset object exists. *)
Definition write_db (dataset : ImageListRaw) (mask_source : option string)
    (write_frequency : Z) : M unit :=
  run lmdb (EOpen (map_size dataset mask_source)) then
  run lmdb EBegin then
  run write_loop dataset write_frequency (seq 0 (ImageListRaw_len dataset)) then
  run lmdb ECommit then
  let* keys := key_list dataset in
  run write_meta dataset keys then
  run lmdb ESync then
  lmdb EClose.

(** [list2lmdb]. The argument [image_list] is the content of the manifest
    file. Two arguments of the source are left out: [dest], which only names
    the directory of the store, and [num_workers], which is handed to the
    [DataLoader] and decides how many processes fetch items ahead of the
    loop, not the order in which the loop receives them. The progress
    messages are left out as well. *)
Definition list2lmdb (attribute : string) (source mask_source : option string)
    (image_list : list row) (write_frequency : Z) : M unit :=
  let* dataset := lift (ImageListRaw_init attribute source mask_source image_list) in
  write_db dataset mask_source write_frequency.

End Pipeline.

(** ** The store a reader sees *)

(** Replaying a log: the transactions committed so far, each with the puts
    it made durable, and the puts staged in the open transaction. *)
Definition txn_step (st : list (list (string * pyobj)) * list (string * pyobj))
    (e : event) : list (list (string * pyobj)) * list (string * pyobj) :=
  match e with
  | EPut key obj => (st.1, (st.2 ++ [(key, obj)])%list)
  | ECommit => ((st.1 ++ [st.2])%list, [])
  | EBegin | EAbort => (st.1, [])
  | _ => st
  end.

Definition batches (log : list event) : list (list (string * pyobj)) :=
  (foldl txn_step ([], []) log).1.

(** Every committed put, in commit order. *)
Definition committed (log : list event) : list (string * pyobj) :=
  List.concat (batches log).

(** Everything a replay state holds: the committed puts, then the staged
    ones. *)
Definition txn_all (st : list (list (string * pyobj)) * list (string * pyobj))
    : list (string * pyobj) :=
  (List.concat st.1 ++ st.2)%list.

(** The keys put by a log, in order, committed or not. *)
Definition put_keys (log : list event) : list string :=
  omap (fun e => match e with EPut key _ => Some key | _ => None end) log.

Section Store.

(** [lz4framed.compress(pa.serialize(obj).to_buffer())]. *)
Variable dumps_pyarrow : pyobj -> string.

(** The content of a store that was empty before the run. *)
Definition db_of_log (log : list event) : gmap string string :=
  foldl (fun db kv => <[kv.1 := dumps_pyarrow kv.2]> db) ∅ (committed log).

End Store.

(** ** Vocabulary of the properties *)

(** A label does not exceed an entry of [MAX_CLASS], as an order on the
    integers: every integer lies below [float("Inf")]. *)
Definition at_most (label : Z) (m : max_label) : Prop :=
  match m with
  | Fin k => (label <= k)%Z
  | Inf => True
  end.

(** A label passes both filters of [__init__]. *)
Definition in_range (max_class : max_label) (z : Z) : bool :=
  (0 <=? z)%Z && le_max z max_class.

(** The label a row carries in a column, when the cell converts. *)
Definition label_of (attribute : nat) (r : row) : option Z :=
  match cell_int attribute r with
  | OK z => Some z
  | Raise _ => None
  end.

(** The rows of a manifest whose label in the column lies in the range. *)
Definition surviving (attribute : nat) (max_class : max_label)
    (image_list : list row) : list row :=
  List.filter
    (fun r => match label_of attribute r with
              | Some z => in_range max_class z
              | None => false
              end)
    image_list.

(** The mask path [__init__] derives for a sample reference. *)
Definition mask_path (mask_source image_name : string) : string :=
  Py.slice_until_neg 4 (Py.path_join mask_source image_name) ++ "_mask.png".

(** What a dataset object that [__init__] built looks like. *)
Record built_from (attribute_name : string) (source mask_source : option string)
    (image_list : list row) (attribute : nat) (max_class : max_label)
    (self : ImageListRaw) : Prop := {
  bf_attribute : ATTRIBUTES !! attribute_name = Some attribute;
  bf_max_class : MAX_CLASS !! attribute_name = Some max_class;
  bf_targets :
    Forall2 (fun r z => label_of attribute r = Some z)
      (surviving attribute max_class image_list) (targets self);
  bf_samples :
    samples self =
      match source with
      | Some source =>
          map (Py.path_join source)
            (map sample_ref (surviving attribute max_class image_list))
      | None => map sample_ref (surviving attribute max_class image_list)
      end;
  bf_masks :
    masks self =
      match source, mask_source with
      | Some _, Some mask_source =>
          MasksList (map (mask_path mask_source)
                       (map sample_ref (surviving attribute max_class image_list)))
      | Some _, None => MasksNone
      | None, _ => MasksUnset
      end;
  bf_in_range : Forall (fun z => in_range max_class z = true) (targets self);
  bf_classnum :
    exists m, np_max (targets self) = OK m
      /\ classnum self = if String.eqb attribute_name "age" then m else wrap64 (m + 1)
}.

(** A file read that [__getitem__] may perform on this dataset. *)
Definition dataset_read (self : ImageListRaw) (e : event) : Prop :=
  exists p, e = ERead p /\
    (In p (samples self) \/ exists l, masks self = MasksList l /\ In p l).

Section Traces.

Variable files : string -> option string.

(** The image path, mask path and record of the item at [idx], when the
    dataset has a mask list and both files can be read. *)
Definition record_at (self : ImageListRaw) (idx : nat)
    : option (string * string * pyobj) :=
  match samples self !! idx, masks self, targets self !! idx with
  | Some p, MasksList l, Some label =>
      match files p, l !! idx with
      | Some img, Some mp =>
          match files mp with
          | Some mask => Some (p, mp, PyTuple3 img label mask)
          | None => None
          end
      | _, _ => None
      end
  | _, _, _ => None
  end.

(** The events of the [if idx % write_frequency == 0] of one record. *)
Definition commit_events (write_frequency : Z) (idx : nat) : list event :=
  if (Z.of_nat idx mod write_frequency =? 0)%Z then [ECommit; EBegin] else [].

(** The events of one turn of the loop that runs to its end. *)
Definition record_events (self : ImageListRaw) (write_frequency : Z) (idx : nat)
    : list event :=
  (match record_at self idx with
   | Some (p, mp, obj) => [ERead p; ERead mp; EPut (Py.format_idx idx) obj]
   | None => []
   end ++ commit_events write_frequency idx)%list.

(** A put of the record of some dataset item under its sequential key. *)
Definition data_put (self : ImageListRaw) (e : event) : Prop :=
  exists idx p mp obj,
    e = EPut (Py.format_idx idx) obj /\ record_at self idx = Some (p, mp, obj).

Definition loop_event (self : ImageListRaw) (e : event) : Prop :=
  dataset_read self e \/ data_put self e \/ e = ECommit \/ e = EBegin.

(** The key and the record that a run stores for the item at [idx]. *)
Definition record_of (self : ImageListRaw) (idx : nat) : option (string * pyobj) :=
  match record_at self idx with
  | Some (_, _, obj) => Some (Py.format_idx idx, obj)
  | None => None
  end.

(** The sequential keys of [n] records. *)
Definition data_keys (n : nat) : list string := map Py.format_idx (seq 0 n).

(** The events up to and including the commit that follows the loop, for a
    run that gets that far. *)
Definition data_phase (self : ImageListRaw) (mask_source : option string)
    (write_frequency : Z) : list event :=
  ([EOpen (map_size self mask_source); EBegin]
   ++ flat_map (record_events self write_frequency) (seq 0 (ImageListRaw_len self))
   ++ [ECommit])%list.

(** The events of the metadata transaction and of the shutdown. *)
Definition finalization (self : ImageListRaw) : list event :=
  [EBegin;
   EPut "__keys__" (PyList (data_keys (ImageListRaw_len self)));
   EPut "__len__" (PyInt (Z.of_nat (ImageListRaw_len self)));
   EPut "__classnum__" (PyInt (classnum self));
   ECommit; ESync; EClose].

(** An event of a run that stopped before the commit that ends the data
    records. *)
Definition early_event (self : ImageListRaw) (mask_source : option string)
    (e : event) : Prop :=
  loop_event self e \/ e = EOpen (map_size self mask_source).

(** An event that some run over the dataset object can perform. *)
Definition run_event (self : ImageListRaw) (mask_source : option string)
    (e : event) : Prop :=
  early_event self mask_source e \/ In e (finalization self) \/ e = EAbort.

End Traces.

(** The column and the largest valid label of each attribute as the
    specification words them: the row layout
    [[path] [race] [gender] [age] [recognition-id]], race at most 4, gender
    at most 1, age and recognition unbounded. *)
Definition spec_ATTRIBUTES : gmap string nat :=
  list_to_map [("race", 1%nat); ("gender", 2%nat); ("age", 3%nat); ("recognition", 4%nat)].

Definition spec_MAX_CLASS : gmap string max_label :=
  list_to_map [("race", Fin 4); ("gender", Fin 1); ("age", Inf); ("recognition", Inf)].

(** The loader reads the labels from the column and keeps the rows within
    the bound that a pair of tables gives for the attribute. *)
Definition loader_follows (columns : gmap string nat) (bounds : gmap string max_label)
    : Prop :=
  forall attribute_name source mask_source image_list self,
    ImageListRaw_init attribute_name source mask_source image_list = OK self ->
    exists attribute max_class,
      columns !! attribute_name = Some attribute
      /\ bounds !! attribute_name = Some max_class
      /\ Forall2 (fun r z => label_of attribute r = Some z)
           (surviving attribute max_class image_list) (targets self).

(** The label a stored object carries, when it is a record. *)
Definition obj_label (obj : pyobj) : option Z :=
  match obj with
  | PyTuple3 _ label _ | PyTuple2 _ label => Some label
  | PyList _ | PyInt _ => None
  end.

(** The path of the image of a manifest row. *)
Definition sample_path (source : option string) (r : row) : string :=
  match source with
  | Some source => Py.path_join source (sample_ref r)
  | None => sample_ref r
  end.

(** ** The store handle as a state machine *)

(** [lmdb.open] gives a handle on which one write transaction at a time
    can be open: [db.begin(write=True)] needs an idle handle, [txn.put],
    [txn.commit] and [txn.abort] need an open transaction, [db.sync] and
    [db.close] an idle handle, and nothing can follow [db.close]. *)
Inductive handle : Type :=
| Unopened
| Idle
| InTxn
| Closed.

Definition handle_step (h : handle) (e : event) : option handle :=
  match e, h with
  | ERead _, _ => Some h
  | EOpen _, Unopened => Some Idle
  | EBegin, Idle => Some InTxn
  | EPut _ _, InTxn => Some InTxn
  | ECommit, InTxn => Some Idle
  | EAbort, InTxn => Some Idle
  | ESync, Idle => Some Idle
  | EClose, Idle => Some Closed
  | _, _ => None
  end.

(** The state of the handle after a log that respects the discipline,
    [None] after a log that breaks it. *)
Definition handle_after (log : list event) : option handle :=
  foldl (fun oh e => match oh with Some h => handle_step h e | None => None end)
        (Some Unopened) log.

Section Invariant.

Variable files : string -> option string.

(** What holds of the log at every point of the data phase: the handle
    discipline was respected and left the handle in state [h]; the records
    put so far, committed or staged, are those of the indices below [j], in
    order, each the record of its index; and nothing is staged unless a
    transaction is open. *)
Definition consistent (self : ImageListRaw) (h : handle) (j : nat)
    (log : list event) : Prop :=
  handle_after log = Some h
  /\ Forall (fun idx => is_Some (record_at files self idx)) (seq 0 j)
  /\ txn_all (foldl txn_step ([], []) log) = omap (record_of files self) (seq 0 j)
  /\ (h <> InTxn -> (foldl txn_step ([], []) log).2 = []).

End Invariant.

(** The ways the code that follows the data phase can end: the events it
    adds and its result. The first is the unbound loop variable of a run
    without records, the last is success, and each of the others is a call
    into the store that raised. *)
Definition finalize_outcomes (self : ImageListRaw) : list (list event * result unit) :=
  let k1 := EPut "__keys__" (PyList (map Py.format_idx (seq 0 (ImageListRaw_len self)))) in
  let k2 := EPut "__len__" (PyInt (Z.of_nat (ImageListRaw_len self))) in
  let k3 := EPut "__classnum__" (PyInt (classnum self)) in
  [([], Raise UnboundLocalError);
   ([], Raise LmdbError);
   ([EBegin; EAbort], Raise LmdbError);
   ([EBegin; k1; EAbort], Raise LmdbError);
   ([EBegin; k1; k2; EAbort], Raise LmdbError);
   ([EBegin; k1; k2; k3], Raise LmdbError);
   ([EBegin; k1; k2; k3; ECommit], Raise LmdbError);
   ([EBegin; k1; k2; k3; ECommit; ESync], Raise LmdbError);
   ([EBegin; k1; k2; k3; ECommit; ESync; EClose], OK tt)].

(** The number of records staged in the open transaction when the loop
    reaches the index [a]: those put since the last index that was a
    multiple of the write frequency. *)
Definition staged_at (write_frequency : Z) (a : nat) : Z :=
  match a with
  | O => 0
  | S a' => Z.of_nat a' mod write_frequency
  end.

(** A small world for examples: two images with their masks, an LMDB
    binding that never fails, and a codec that only tags the object. *)
Module Demo.

Definition files (p : string) : option string :=
  if String.eqb p "/img/a.jpg" then Some "A"
  else if String.eqb p "/img/b.jpg" then Some "B"
  else if String.eqb p "/msk/a_mask.png" then Some "a"
  else if String.eqb p "/msk/b_mask.png" then Some "b"
  else None.

Definition lmdb_ok (_ : list event) (_ : event) : bool := true.

Definition dumps_pyarrow (obj : pyobj) : string :=
  match obj with
  | PyTuple3 image _ mask => "3:" ++ image ++ mask
  | PyTuple2 image _ => "2:" ++ image
  | PyList keys => "L:" ++ String.concat "," keys
  | PyInt n => "I:" ++ NilZero.string_of_int (Z.to_int n)
  end.

Definition image_list : list row :=
  [Row "a.jpg" [0; 0; 30; 7]; Row "b.jpg" [1; 1; 31; 8]; Row "c.jpg" [2; 2; 32; 9]]%Z.

End Demo.

(** A run that cannot finish: ten rows, and the image of the row at index 2
    cannot be read. Every other path holds some bytes. *)
Module Aborted.

Definition files (p : string) : option string :=
  if String.eqb p "/img/2.jpg" then None else Some ("bytes of " ++ p).

Definition image_list : list row :=
  map (fun name => Row name [0; 1; 30; 7]%Z)
    ["0.jpg"; "1.jpg"; "2.jpg"; "3.jpg"; "4.jpg";
     "5.jpg"; "6.jpg"; "7.jpg"; "8.jpg"; "9.jpg"].

(** The dataset object that [__init__] builds from it for [gender]. *)
Definition dataset : ImageListRaw :=
  Eval vm_compute in
    match ImageListRaw_init "gender" (Some "/img") (Some "/msk") image_list with
    | OK self => self
    | Raise _ => {| samples := []; masks := MasksUnset; targets := []; classnum := 0 |}
    end.

End Aborted.

(** Five records whose files can all be read. *)
Module Five.

Definition files (p : string) : option string := Some ("bytes of " ++ p).

Definition image_list : list row :=
  map (fun name => Row name [0; 1; 30; 7]%Z)
    ["0.jpg"; "1.jpg"; "2.jpg"; "3.jpg"; "4.jpg"].

End Five.

(** * Properties *)

Example gender_scenario :
  ImageListRaw_init "gender" (Some "/img") (Some "/msk")
    [Row "a.jpg" [0; 0; 30; 7]; Row "b.jpg" [1; 1; 31; 8]; Row "c.jpg" [2; 2; 32; 9]]%Z
  = OK {| samples := ["/img/a.jpg"; "/img/b.jpg"];
          masks := MasksList ["/msk/a_mask.png"; "/msk/b_mask.png"];
          targets := [0; 1]%Z; classnum := 2 |}.
Proof. vm_compute. reflexivity. Qed.

Example gender_run :
  list2lmdb Demo.files Demo.lmdb_ok "gender" (Some "/img") (Some "/msk")
    Demo.image_list 5000 []
  = ([EOpen 1204224; EBegin;
      ERead "/img/a.jpg"; ERead "/msk/a_mask.png"; EPut "0" (PyTuple3 "A" 0 "a");
      ECommit; EBegin;
      ERead "/img/b.jpg"; ERead "/msk/b_mask.png"; EPut "1" (PyTuple3 "B" 1 "b");
      ECommit;
      EBegin; EPut "__keys__" (PyList ["0"; "1"]); EPut "__len__" (PyInt 2);
      EPut "__classnum__" (PyInt 2); ECommit; ESync; EClose], OK tt).
Proof. vm_compute. reflexivity. Qed.


(** ** The manifest loader *)

Lemma rbind_OK {A B} (r : result A) (k : A -> result B) (b : B) :
  rbind r k = OK b -> exists a, r = OK a /\ k a = OK b.
Proof. destruct r as [a|e]; simpl; [eauto | discriminate]. Qed.

Tactic Notation "rinv" hyp(H) "as" ident(a) ident(Ha) :=
  apply rbind_OK in H; destruct H as (a & Ha & H).

Lemma column_int_OK attribute image_names col :
  column_int attribute image_names = OK col ->
  Forall2 (fun r z => label_of attribute r = Some z) image_names col.
Proof.
  unfold column_int. revert col.
  induction image_names as [|r rs IH]; intros col H; simpl in H.
  - injection H as <-. constructor.
  - rinv H as z Hz. rinv H as zs Hzs. injection H as <-.
    constructor; [unfold label_of; now rewrite Hz | now apply IH].
Qed.

Lemma column_int_labels attribute image_names col :
  Forall2 (fun r z => label_of attribute r = Some z) image_names col ->
  column_int attribute image_names = OK col.
Proof.
  unfold column_int. induction 1 as [|r z rs col Hr _ IH]; simpl; [done|].
  unfold label_of in Hr. destruct (cell_int attribute r); [|done].
  injection Hr as ->. simpl. now rewrite IH.
Qed.

Lemma boolean_index_filter attribute (p : Z -> bool) image_names col :
  Forall2 (fun r z => label_of attribute r = Some z) image_names col ->
  boolean_index image_names (map p col)
  = List.filter (fun r => match label_of attribute r with
                          | Some z => p z
                          | None => false
                          end) image_names
  /\ Forall2 (fun r z => label_of attribute r = Some z)
       (boolean_index image_names (map p col)) (List.filter p col).
Proof.
  induction 1 as [|r z rs col Hr _ [IH1 IH2]]; simpl; [split; [done|constructor]|].
  rewrite Hr. destruct (p z); simpl.
  - split; [now rewrite IH1 | now constructor].
  - now split.
Qed.

Lemma filter_filter_andb {A} (p q : A -> bool) (l : list A) :
  List.filter q (List.filter p l) = List.filter (fun x => p x && q x) l.
Proof.
  induction l as [|x l IH]; simpl; [done|].
  destruct (p x); simpl; [destruct (q x)|]; now rewrite IH.
Qed.

(** The two boolean-mask filters keep exactly the rows in range, in
    manifest order, and the column of the kept rows is the in-range part of
    the manifest's column. *)
Lemma filter_rows_OK attribute max_class image_names rows :
  filter_rows attribute max_class image_names = OK rows ->
  rows = surviving attribute max_class image_names
  /\ exists col,
       column_int attribute image_names = OK col
       /\ column_int attribute rows = OK (List.filter (in_range max_class) col).
Proof.
  unfold filter_rows. intros H. rinv H as col Ha. rinv H as col' Hb.
  injection H as <-.
  apply column_int_OK in Ha.
  destruct (boolean_index_filter attribute (fun z => (0 <=? z)%Z) _ _ Ha) as [E1 F1].
  apply column_int_OK in Hb.
  assert (col' = List.filter (fun z => (0 <=? z)%Z) col) as ->.
  { clear -F1 Hb. revert Hb F1. generalize (List.filter (fun z => (0 <=? z)%Z) col).
    generalize (boolean_index image_names (map (fun z => (0 <=? z)%Z) col)).
    intros l c H. revert c. induction H as [|r z rs a0 Hr _ IH]; intros c Hc.
    - now inversion Hc.
    - inversion Hc as [|? z' ? c' Hr' Hc']; subst. f_equal; [congruence | now apply IH]. }
  destruct (boolean_index_filter attribute (fun z => le_max z max_class) _ _ F1) as [E2 F2].
  split.
  - rewrite E2, E1. unfold surviving. rewrite filter_filter_andb.
    apply List.filter_ext. intros r. unfold in_range.
    destruct (label_of attribute r); [done|]. done.
  - exists col. split; [now apply column_int_labels|].
    apply column_int_labels. rewrite filter_filter_andb in F2. exact F2.
Qed.

Lemma fold_left_max_spec (a : list Z) (x : Z) :
  let m := fold_left Z.max a x in
  (m = x \/ In m a) /\ (x <= m)%Z /\ Forall (fun y => (y <= m)%Z) a.
Proof.
  revert x. induction a as [|y a IH]; intros x; simpl.
  - repeat split; [now left | lia | constructor].
  - destruct (IH (Z.max x y)) as (Hin & Hle & Hall).
    repeat split.
    + destruct Hin as [-> | Hin]; [|now right; right].
      destruct (Z.max_spec x y) as [[_ ->] | [_ ->]]; [right; now left | now left].
    + lia.
    + constructor; [lia | exact Hall].
Qed.

(** [np.max] returns an element of the array that bounds all of them. *)
Lemma np_max_OK (a : list Z) (m : Z) :
  np_max a = OK m -> In m a /\ Forall (fun y => (y <= m)%Z) a.
Proof.
  destruct a as [|x a]; simpl; [discriminate|].
  intros [= <-]. destruct (fold_left_max_spec a x) as (Hin & Hle & Hall).
  split; [destruct Hin as [-> | Hin]; [now left | now right] | now constructor].
Qed.

Lemma np_max_empty (a : list Z) : np_max a = Raise ValueError <-> a = [].
Proof. destruct a; simpl; split; congruence. Qed.

Lemma dict_get_OK {V} (d : gmap string V) k v : dict_get d k = OK v -> d !! k = Some v.
Proof. unfold dict_get. destruct (d !! k); congruence. Qed.

Lemma ImageListRaw_init_OK attribute_name source mask_source image_list self :
  ImageListRaw_init attribute_name source mask_source image_list = OK self ->
  exists attribute max_class,
    built_from attribute_name source mask_source image_list attribute max_class self.
Proof.
  unfold ImageListRaw_init. intros H.
  rinv H as attribute Hattr. rinv H as max_class Hmax.
  rinv H as names Hcsv. rinv H as rows Hrows.
  assert (names = image_list) as ->.
  { destruct image_list; simpl in Hcsv; congruence. }
  apply filter_rows_OK in Hrows as (-> & col & Hcol & Htargets).
  set (rows := surviving attribute max_class image_list) in *.
  destruct (match source with Some _ => _ | None => _ end) as [smp msk] eqn:Hsm.
  rinv H as tg Htg. rinv H as m Hm. injection H as <-.
  rewrite Htargets in Htg. injection Htg as <-.
  exists attribute, max_class. split; simpl.
  - now apply dict_get_OK.
  - now apply dict_get_OK.
  - now apply column_int_OK.
  - destruct source; injection Hsm as <- <-; reflexivity.
  - destruct source, mask_source; injection Hsm as <- <-;
      try reflexivity. unfold mask_path. now rewrite map_map.
  - apply List.Forall_forall. intros z Hz. now apply filter_In in Hz.
  - eauto.
Qed.

Lemma built_from_length attribute_name source mask_source image_list attribute
    max_class self :
  built_from attribute_name source mask_source image_list attribute max_class self ->
  length (samples self) = length (surviving attribute max_class image_list)
  /\ length (targets self) = length (surviving attribute max_class image_list).
Proof.
  intros B. split.
  - rewrite (bf_samples _ _ _ _ _ _ _ B). destruct source; now rewrite ?length_map.
  - symmetry. exact (Forall2_length _ _ _ (bf_targets _ _ _ _ _ _ _ B)).
Qed.

(** ** Runs and their logs *)

Lemma bind_inv {A B} (m : M A) (k : A -> M B) log log' (r : result B) :
  bind m k log = (log', r) ->
  (exists e, m log = (log', Raise e) /\ r = Raise e)
  \/ (exists a log1, m log = (log1, OK a) /\ k a log1 = (log', r)).
Proof.
  unfold bind. destruct (m log) as [log1 [a|e]]; intros H.
  - right. eauto.
  - left. injection H as <- <-. eauto.
Qed.

Lemma bind_inv_OK {A B} (m : M A) (k : A -> M B) log log' (b : B) :
  bind m k log = (log', OK b) ->
  exists a log1, m log = (log1, OK a) /\ k a log1 = (log', OK b).
Proof.
  intros H. apply bind_inv in H as [(e & _ & [=]) | H]. exact H.
Qed.

Lemma lift_inv {A} (r : result A) log log' (r' : result A) :
  lift r log = (log', r') -> log' = log /\ r' = r.
Proof. unfold lift. now intros [= <- <-]. Qed.

Section Runs.

Variable files : string -> option string.
Variable lmdb_ok : list event -> event -> bool.

Lemma lmdb_inv e log log' r :
  lmdb lmdb_ok e log = (log', r) ->
  (log' = (log ++ [e])%list /\ r = OK tt /\ lmdb_ok log e = true)
  \/ (log' = log /\ r = Raise LmdbError).
Proof.
  unfold lmdb. destruct (lmdb_ok log e); intros [= <- <-]; [left | right]; auto.
Qed.

Lemma lmdb_inv_OK e log log' u :
  lmdb lmdb_ok e log = (log', OK u) -> log' = (log ++ [e])%list.
Proof. intros H. apply lmdb_inv in H as [(-> & _) | (_ & [=])]. reflexivity. Qed.

Lemma read_file_inv p log log' r :
  read_file files p log = (log', r) ->
  (exists content, files p = Some content
     /\ log' = (log ++ [ERead p])%list /\ r = OK content)
  \/ (files p = None /\ log' = log /\ r = Raise (FileNotFoundError p)).
Proof.
  unfold read_file. destruct (files p) as [content|]; intros [= <- <-];
    [left | right]; eauto.
Qed.

(** [__getitem__] only reads files of the dataset, and when it returns it
    has read the image and the mask and returns both with the label. *)
Lemma ImageListRaw_getitem_inv self idx log log' r :
  ImageListRaw_getitem files self idx log = (log', r) ->
  exists ext, log' = (log ++ ext)%list /\ Forall (dataset_read self) ext
    /\ forall data, r = OK data ->
         exists p mp img label mask,
           record_at files self idx = Some (p, mp, PyTuple3 img label mask)
           /\ data = (img, label, Some mask) /\ ext = [ERead p; ERead mp].
Proof.
  unfold ImageListRaw_getitem, record_at, list_get. intros H.
  apply bind_inv in H as [(e & H & ->) | (p & log1 & H & K)];
    apply lift_inv in H as [-> H].
  { exists []. rewrite app_nil_r. repeat split; [constructor | discriminate]. }
  destruct (samples self !! idx) as [p'|] eqn:Hp; [|discriminate].
  injection H as <-.
  assert (Rp : dataset_read self (ERead p)).
  { exists p. split; [done|]. left. apply list_elem_of_In.
    eapply list_elem_of_lookup_2; eauto. }
  apply bind_inv in K as [(e & H & ->) | (img & log2 & H & K)];
    apply read_file_inv in H as [(c & Hc & -> & H) | (Hc & -> & H)];
    try discriminate.
  { exists []. rewrite app_nil_r. repeat split; [constructor | discriminate]. }
  injection H as <-. rewrite Hc.
  destruct (masks self) as [| |l] eqn:Hm.
  - (* self.masks was never assigned *)
    apply bind_inv in K as [(e & H & ->) | (x & log3 & H & _)];
      [|discriminate].
    injection H as <- _. exists [ERead p].
    repeat split; [now repeat constructor | discriminate].
  - (* self.masks is None: mask stays unbound *)
    apply bind_inv in K as [(e & H & _) | (x & log3 & H & K)]; [discriminate|].
    injection H as <- <-.
    apply bind_inv in K as [(e & H & ->) | (label & log4 & H & K)];
      apply lift_inv in H as [-> H].
    + exists [ERead p]. repeat split; [now repeat constructor | discriminate].
    + injection K as <- <-. exists [ERead p].
      repeat split; [now repeat constructor | discriminate].
  - apply bind_inv in K as [(e & H & ->) | (x & log3 & H & K)].
    + (* the mask cannot be read *)
      apply bind_inv in H as [(e' & H & _) | (mp & log4 & H & K)];
        apply lift_inv in H as [-> H].
      * exists [ERead p]. repeat split; [now repeat constructor | discriminate].
      * apply bind_inv in K as [(e' & H' & _) | (c' & log5 & _ & K)];
          [|discriminate].
        apply read_file_inv in H' as [(c' & _ & _ & [=]) | (_ & -> & _)].
        exists [ERead p]. repeat split; [now repeat constructor | discriminate].
    + apply bind_inv_OK in H as (mp & log4 & H & K').
      apply lift_inv in H as [-> H].
      destruct (l !! idx) as [mp'|] eqn:Hmp; [|discriminate]. injection H as <-.
      apply bind_inv_OK in K' as (mask & log5 & H & K').
      apply read_file_inv in H as [(c' & Hcm & -> & [= <-]) | (_ & _ & [=])].
      injection K' as <- <-.
      assert (Rm : dataset_read self (ERead mp)).
      { exists mp. split; [done|]. right. exists l. split; [done|].
        apply list_elem_of_In. eapply list_elem_of_lookup_2; eauto. }
      apply bind_inv in K as [(e & H & ->) | (label & log6 & H & K)];
        apply lift_inv in H as [-> H].
      * exists [ERead p; ERead mp]. rewrite <- app_assoc.
        repeat split; [now repeat constructor | discriminate].
      * destruct (targets self !! idx) as [label'|]; [|discriminate].
        injection H as <-. injection K as <- <-.
        exists [ERead p; ERead mp]. rewrite <- app_assoc, Hcm.
        repeat split; [now repeat constructor|].
        intros data [= <-]. exists p, mp, img, label, mask. auto.
Qed.

Lemma record_events_Some self write_frequency idx p mp obj :
  record_at files self idx = Some (p, mp, obj) ->
  record_events files self write_frequency idx
  = ([ERead p; ERead mp; EPut (Py.format_idx idx) obj]
     ++ commit_events write_frequency idx)%list.
Proof. unfold record_events. now intros ->. Qed.

Lemma Forall_loop_event_reads self ext :
  Forall (dataset_read self) ext -> Forall (loop_event files self) ext.
Proof. apply List.Forall_impl. intros e He. now left. Qed.

Lemma maybe_commit_inv write_frequency idx log log' r :
  maybe_commit lmdb_ok write_frequency idx log = (log', r) ->
  exists ext, log' = (log ++ ext)%list
    /\ Forall (fun e => e = ECommit \/ e = EBegin) ext
    /\ (forall u, r = OK u ->
          write_frequency <> 0%Z /\ ext = commit_events write_frequency idx).
Proof.
  unfold maybe_commit, commit_events. intros H.
  destruct (Z.eqb_spec write_frequency 0) as [Hw|Hw].
  { injection H as <- <-. exists []. rewrite app_nil_r.
    repeat split; [constructor | discriminate | discriminate]. }
  destruct (Z.of_nat idx mod write_frequency =? 0)%Z.
  - apply bind_inv in H as [(e & H & ->) | ([] & log1 & H & K)];
      apply lmdb_inv in H as [(-> & H & _) | (-> & H)]; try discriminate.
    { exists []. rewrite app_nil_r.
      repeat split; [constructor | discriminate | discriminate]. }
    apply lmdb_inv in K as [(-> & -> & _) | (-> & ->)].
    + exists [ECommit; EBegin]. rewrite <- app_assoc.
      split; [done|]. split; [|done].
      constructor; [now left | constructor; [now right | constructor]].
    + exists [ECommit].
      split; [done|]. split; [|discriminate].
      constructor; [now left | constructor].
  - injection H as <- <-. exists []. rewrite app_nil_r.
    repeat split; [constructor | done].
Qed.

(** Whatever the outcome, the loop only reads dataset files, puts dataset
    records under their sequential keys, commits and begins; when it runs
    to its end, its events are those of every index in turn. *)
Lemma write_loop_inv self write_frequency idxs log log' r :
  write_loop files lmdb_ok self write_frequency idxs log = (log', r) ->
  exists ext, log' = (log ++ ext)%list
    /\ Forall (loop_event files self) ext
    /\ (forall u, r = OK u ->
          ext = flat_map (record_events files self write_frequency) idxs
          /\ Forall (fun idx => is_Some (record_at files self idx)) idxs
          /\ (idxs <> [] -> write_frequency <> 0%Z)).
Proof.
  revert log. induction idxs as [|idx rest IH]; intros log H; simpl in H.
  { injection H as <- <-. exists []. rewrite app_nil_r.
    repeat split; [constructor | constructor | done]. }
  apply bind_inv in H as [(e & H & ->) | (data & log1 & H & K)];
    apply ImageListRaw_getitem_inv in H as (ext1 & -> & R1 & D).
  { exists ext1. repeat split;
      [now apply Forall_loop_event_reads | discriminate..]. }
  destruct (D data eq_refl) as (p & mp & img & label & mask & Hrec & -> & ->).
  clear D. apply Forall_loop_event_reads in R1.
  apply bind_inv in K as [(e & H & ->) | ([] & log2 & H & K)];
    apply lmdb_inv in H as [(-> & H & _) | (-> & H)]; try discriminate.
  { exists [ERead p; ERead mp]. repeat split; [done | discriminate..]. }
  assert (P : loop_event files self (EPut (Py.format_idx idx) (PyTuple3 img label mask))).
  { right; left. exists idx, p, mp, (PyTuple3 img label mask). auto. }
  apply bind_inv in K as [(e & H' & ->) | ([] & log3 & H' & K)];
    apply maybe_commit_inv in H' as (ext2 & -> & R2 & C).
  { exists ([ERead p; ERead mp; EPut (Py.format_idx idx) (PyTuple3 img label mask)]
            ++ ext2)%list.
    rewrite <- !app_assoc. repeat split; try discriminate.
    inversion R1 as [|? ? Rp R1']. inversion R1' as [|? ? Rmp _].
    repeat (constructor; [assumption|]).
    eapply Forall_impl; [exact R2|].
    intros e' [-> | ->]; unfold loop_event; auto. }
  destruct (C tt eq_refl) as (Hw & ->). clear C.
  apply IH in K as (ext3 & -> & R3 & S).
  exists ([ERead p; ERead mp; EPut (Py.format_idx idx) (PyTuple3 img label mask)]
          ++ commit_events write_frequency idx ++ ext3)%list.
  split; [now rewrite <- !app_assoc|]. split.
  - inversion R1 as [|? ? Rp R1']. inversion R1' as [|? ? Rmp _].
    repeat (constructor; [assumption|]).
    apply Forall_app. split; [|exact R3].
    eapply Forall_impl; [exact R2|].
    intros e' [-> | ->]; unfold loop_event; auto.
  - intros u ->. destruct (S u eq_refl) as (-> & Hall & _).
    split; [|split; [constructor; [rewrite Hrec; eauto | exact Hall] | done]].
    cbn [flat_map]. rewrite (record_events_Some _ write_frequency _ _ _ _ Hrec).
    now rewrite <- app_assoc.
Qed.

Lemma data_keys_length n : length (data_keys n) = n.
Proof. unfold data_keys. now rewrite length_map, length_seq. Qed.

(** The metadata transaction either runs to its end or stops somewhere
    along [finalization], with an abort when it stops inside the
    [with] block. *)
Lemma write_meta_inv self log log' r :
  write_meta lmdb_ok self (data_keys (ImageListRaw_len self)) log = (log', r) ->
  exists pre ab,
    log' = (log ++ pre ++ ab)%list
    /\ pre `prefix_of` [EBegin;
          EPut "__keys__" (PyList (data_keys (ImageListRaw_len self)));
          EPut "__len__" (PyInt (Z.of_nat (ImageListRaw_len self)));
          EPut "__classnum__" (PyInt (classnum self));
          ECommit]
    /\ (ab = [] \/ ab = [EAbort])
    /\ (forall u, r = OK u -> ab = [] /\ pre = [EBegin;
          EPut "__keys__" (PyList (data_keys (ImageListRaw_len self)));
          EPut "__len__" (PyInt (Z.of_nat (ImageListRaw_len self)));
          EPut "__classnum__" (PyInt (classnum self));
          ECommit]).
Proof.
  unfold write_meta, with_txn. rewrite data_keys_length.
  set (k1 := EPut "__keys__" _). set (k2 := EPut "__len__" _).
  set (k3 := EPut "__classnum__" _).
  intros H.
  assert (P : forall n, take n [EBegin; k1; k2; k3; ECommit]
                        `prefix_of` [EBegin; k1; k2; k3; ECommit])
    by (intros n; apply prefix_take).
  apply bind_inv in H as [(e & H & ->) | ([] & log1 & H & K)];
    apply lmdb_inv in H as [(-> & H & _) | (-> & H)]; try discriminate.
  { exists [], []. rewrite !app_nil_r. repeat split; auto using prefix_nil; discriminate. }
  destruct (bind _ _ _) as [log2 [[]|e]] eqn:B.
  - apply bind_inv_OK in B as ([] & l1 & H1 & B). apply lmdb_inv_OK in H1 as ->.
    apply bind_inv_OK in B as ([] & l2 & H2 & B). apply lmdb_inv_OK in H2 as ->.
    apply lmdb_inv_OK in B as ->.
    apply lmdb_inv in K as [(-> & -> & _) | (-> & ->)].
    + exists [EBegin; k1; k2; k3; ECommit], []. rewrite <- !app_assoc.
      repeat split; auto.
    + exists [EBegin; k1; k2; k3], []. rewrite <- !app_assoc.
      repeat split; auto; [apply (P 4%nat) | discriminate..].
  - injection K as <- <-.
    apply bind_inv in B as [(e' & H1 & _) | ([] & l1 & H1 & B)];
      apply lmdb_inv in H1 as [(-> & H1 & _) | (-> & H1)]; try discriminate.
    { exists [EBegin], [EAbort]. rewrite <- !app_assoc.
      repeat split; auto; [apply (P 1%nat) | discriminate..]. }
    apply bind_inv in B as [(e' & H2 & _) | ([] & l2 & H2 & B)];
      apply lmdb_inv in H2 as [(-> & H2 & _) | (-> & H2)]; try discriminate.
    { exists [EBegin; k1], [EAbort]. rewrite <- !app_assoc.
      repeat split; auto; [apply (P 2%nat) | discriminate..]. }
    apply lmdb_inv in B as [(_ & [=] & _) | (-> & _)].
    exists [EBegin; k1; k2], [EAbort]. rewrite <- !app_assoc.
    repeat split; auto; [apply (P 3%nat) | discriminate..].
Qed.

(** The two ways a run over a dataset object can go: it stops before the
    data records are all committed, having put nothing but data records;
    or it performs the whole data phase and then some prefix of the
    finalization (all of it exactly when it succeeds). *)
Lemma write_db_inv self mask_source write_frequency log log' r :
  write_db files lmdb_ok self mask_source write_frequency log = (log', r) ->
  (exists e ext,
      r = Raise e /\ log' = (log ++ ext)%list
      /\ Forall (early_event files self mask_source) ext)
  \/ (Forall (fun idx => is_Some (record_at files self idx))
              (seq 0 (ImageListRaw_len self))
      /\ (ImageListRaw_len self <> 0%nat -> write_frequency <> 0%Z)
      /\ exists pre ab,
           log' = (log ++ data_phase files self mask_source write_frequency
                       ++ pre ++ ab)%list
           /\ pre `prefix_of` finalization self
           /\ (ab = [] \/ ab = [EAbort])
           /\ (forall u, r = OK u -> ab = [] /\ pre = finalization self)).
Proof.
  unfold write_db, data_phase. intros H.
  set (o := EOpen (map_size self mask_source)) in *.
  assert (Eo : early_event files self mask_source o) by now right.
  assert (Eb : early_event files self mask_source EBegin) by (left; unfold loop_event; auto).
  apply bind_inv in H as [(e & H & ->) | ([] & log1 & H & K)];
    apply lmdb_inv in H as [(-> & H & _) | (-> & H)]; try discriminate.
  { left. exists e, []. rewrite app_nil_r. repeat split. constructor. }
  apply bind_inv in K as [(e & H' & ->) | ([] & log2 & H' & K)];
    apply lmdb_inv in H' as [(-> & H' & _) | (-> & H')]; try discriminate.
  { left. exists e, [o]. repeat split. now repeat constructor. }
  apply bind_inv in K as [(e & L & ->) | ([] & log3 & L & K)];
    apply write_loop_inv in L as (ext & -> & R & S).
  { left. exists e, ([o; EBegin] ++ ext)%list. rewrite <- !app_assoc.
    repeat split. repeat (constructor; [assumption|]).
    eapply Forall_impl; [exact R|]. intros ev Hev. now left. }
  destruct (S tt eq_refl) as (-> & Hall & Hw). clear S.
  apply bind_inv in K as [(e & H'' & ->) | ([] & log4 & H'' & K)];
    apply lmdb_inv in H'' as [(-> & H'' & _) | (-> & H'')]; try discriminate.
  { left. exists e, ([o; EBegin]
      ++ flat_map (record_events files self write_frequency)
           (seq 0 (ImageListRaw_len self)))%list.
    rewrite <- !app_assoc. repeat split. repeat (constructor; [assumption|]).
    eapply Forall_impl; [exact R|]. intros ev Hev. now left. }
  right. split; [exact Hall|]. split.
  { intros HN. apply Hw. destruct (ImageListRaw_len self); [done | discriminate]. }
  clear Hw R Hall.
  set (D := ((((log ++ [o]) ++ [EBegin]) ++ _) ++ [ECommit])%list) in *.
  assert (ED : D = (log ++ ([o; EBegin]
      ++ flat_map (record_events files self write_frequency)
           (seq 0 (ImageListRaw_len self)) ++ [ECommit]))%list).
  { unfold D. now rewrite <- !app_assoc. }
  unfold key_list in K.
  apply bind_inv in K as [(e & Hk & ->) | (keys & log5 & Hk & K)].
  { destruct (ImageListRaw_len self); [|discriminate]. injection Hk as <- _.
    exists [], []. rewrite !app_nil_r, ED.
    repeat split; auto using prefix_nil; discriminate. }
  assert (log5 = D /\ keys = data_keys (ImageListRaw_len self)) as [-> ->].
  { destruct (ImageListRaw_len self) as [|n]; [discriminate|].
    injection Hk as <- <-. split; [done|]. unfold data_keys.
    now replace (n + 1)%nat with (S n) by lia. }
  unfold finalization.
  set (k1 := EPut "__keys__" _). set (k2 := EPut "__len__" _).
  set (k3 := EPut "__classnum__" _).
  assert (P : forall n, take n [EBegin; k1; k2; k3; ECommit; ESync; EClose]
                        `prefix_of` [EBegin; k1; k2; k3; ECommit; ESync; EClose])
    by (intros n; apply prefix_take).
  apply bind_inv in K as [(e & Hm & ->) | ([] & log6 & Hm & K)];
    apply write_meta_inv in Hm as (pre & ab & -> & Hpre & Hab & Hok).
  { exists pre, ab. rewrite ED, <- !app_assoc.
    repeat split; [|exact Hab|discriminate..].
    etrans; [exact Hpre|]. apply (P 5%nat). }
  destruct (Hok tt eq_refl) as [-> ->]. clear Hok Hpre Hab.
  fold k1 k2 k3 in K. fold k1 k2 k3.
  apply bind_inv in K as [(e & Hs & ->) | ([] & log7 & Hs & K)];
    apply lmdb_inv in Hs as [(-> & Hs & _) | (-> & Hs)]; try discriminate.
  { exists [EBegin; k1; k2; k3; ECommit], []. rewrite ED, <- !app_assoc.
    repeat split; auto; [apply (P 5%nat) | discriminate..]. }
  apply lmdb_inv in K as [(-> & -> & _) | (-> & ->)].
  - exists [EBegin; k1; k2; k3; ECommit; ESync; EClose], [].
    rewrite ED, <- !app_assoc. repeat split; auto.
  - exists [EBegin; k1; k2; k3; ECommit; ESync], []. rewrite ED, <- !app_assoc.
    repeat split; auto; [apply (P 6%nat) | discriminate..].
Qed.

Lemma list2lmdb_inv attribute source mask_source image_list write_frequency log r :
  list2lmdb files lmdb_ok attribute source mask_source image_list write_frequency []
  = (log, r) ->
  (exists e, ImageListRaw_init attribute source mask_source image_list = Raise e
             /\ log = [] /\ r = Raise e)
  \/ (exists self,
        ImageListRaw_init attribute source mask_source image_list = OK self
        /\ write_db files lmdb_ok self mask_source write_frequency [] = (log, r)).
Proof.
  unfold list2lmdb. intros H.
  apply bind_inv in H as [(e & H & ->) | (self & log1 & H & K)];
    apply lift_inv in H as [-> H]; [left | right]; eauto.
Qed.

End Runs.

(** ** Sequential keys *)

Lemma to_uint_nonnil (n : nat) : Nat.to_uint n <> Decimal.Nil.
Proof.
  rewrite <- (Unsigned.of_to n) at 1. rewrite Unsigned.to_of.
  apply DecimalFacts.unorm_nonnil.
Qed.

(** The key of an index is its decimal numeral: reading it back gives the
    index. *)
Lemma format_idx_decimal (idx : nat) :
  NilZero.uint_of_string (Py.format_idx idx) = Some (Nat.to_uint idx).
Proof. apply NilZero.usu, to_uint_nonnil. Qed.

Lemma format_idx_inj (i j : nat) : Py.format_idx i = Py.format_idx j -> i = j.
Proof.
  intros E. apply Unsigned.to_uint_inj.
  pose proof (format_idx_decimal i) as Hi. rewrite E in Hi.
  rewrite (format_idx_decimal j) in Hi. congruence.
Qed.

Lemma format_idx_not_meta (idx : nat) : ~ In (Py.format_idx idx) META_KEYS.
Proof.
  intros H. pose proof (format_idx_decimal idx) as Hd.
  destruct H as [E | [E | [E | []]]]; rewrite <- E in Hd; discriminate.
Qed.

Lemma data_keys_NoDup (n : nat) : List.NoDup (data_keys n).
Proof.
  unfold data_keys. apply Finite.Injective_map_NoDup.
  - intros i j. apply format_idx_inj.
  - apply List.seq_NoDup.
Qed.

Lemma data_keys_not_meta (n : nat) (k : string) :
  In k (data_keys n) -> ~ In k META_KEYS.
Proof.
  unfold data_keys. intros H. apply in_map_iff in H as (idx & <- & _).
  apply format_idx_not_meta.
Qed.

Lemma data_keys_In (n : nat) (k : string) :
  In k (data_keys n) <-> exists idx, (idx < n)%nat /\ k = Py.format_idx idx.
Proof.
  unfold data_keys. rewrite in_map_iff. split.
  - intros (idx & <- & H). apply in_seq in H. exists idx. split; [lia | done].
  - intros (idx & H & ->). exists idx. split; [done|]. apply in_seq. lia.
Qed.

(** ** Replaying logs *)

Lemma txn_all_origin (log : list event) st kv :
  In kv (txn_all (foldl txn_step st log)) ->
  In kv (txn_all st) \/ In (EPut kv.1 kv.2) log.
Proof.
  revert st. induction log as [|e log IH]; intros st H; simpl in *; [now left|].
  apply IH in H as [H | H]; [|now right; right].
  destruct st as [bs cur], kv as [k o]. unfold txn_all in *.
  destruct e; simpl in *; auto.
  - left. apply in_app_iff in H as [H | []]. apply in_app_iff. now left.
  - apply in_app_iff in H as [H | H]; [left; apply in_app_iff; now left|].
    apply in_app_iff in H as [H | H]; [left; apply in_app_iff; now right|].
    destruct H as [[= <- <-] | []]. right. now left.
  - left. rewrite app_nil_r, List.concat_app in H. simpl in H.
    now rewrite app_nil_r in H.
  - left. apply in_app_iff in H as [H | []]. apply in_app_iff. now left.
Qed.

(** A committed put was put. *)
Lemma committed_was_put (log : list event) (k : string) (o : pyobj) :
  In (k, o) (committed log) -> In (EPut k o) log.
Proof.
  intros H. unfold committed, batches in H.
  destruct (txn_all_origin log ([], []) (k, o)) as [[] | Hput]; [|exact Hput].
  unfold txn_all. apply in_app_iff. now left.
Qed.

Section Replay.

Variable files : string -> option string.

Lemma replay_records self write_frequency idxs st :
  Forall (fun idx => is_Some (record_at files self idx)) idxs ->
  txn_all (foldl txn_step st (flat_map (record_events files self write_frequency) idxs))
  = (txn_all st ++ omap (record_of files self) idxs)%list.
Proof.
  intros Hall. revert st.
  induction Hall as [|idx idxs [[[p mp] obj] Hrec] _ IH]; intros st; simpl.
  { now rewrite app_nil_r. }
  rewrite foldl_app, IH. unfold record_of at 2. rewrite Hrec. simpl.
  rewrite (record_events_Some files _ write_frequency _ _ _ _ Hrec).
  rewrite foldl_app. simpl. unfold commit_events.
  destruct (Z.of_nat idx mod write_frequency =? 0)%Z; unfold txn_all; simpl.
  - rewrite List.concat_app. simpl. now rewrite !app_nil_r, <- !app_assoc.
  - now rewrite <- !app_assoc.
Qed.

Lemma records_keys self idxs :
  Forall (fun idx => is_Some (record_at files self idx)) idxs ->
  map fst (omap (record_of files self) idxs) = map Py.format_idx idxs.
Proof.
  induction 1 as [|idx idxs [[[p mp] obj] Hrec] _ IH]; simpl; [done|].
  unfold record_of at 1. rewrite Hrec. simpl. f_equal. exact IH.
Qed.

(** After the data phase every record is committed, in index order, and
    no put is left staged. *)
Lemma replay_data_phase self mask_source write_frequency :
  Forall (fun idx => is_Some (record_at files self idx))
         (seq 0 (ImageListRaw_len self)) ->
  exists bs,
    foldl txn_step ([], []) (data_phase files self mask_source write_frequency)
    = (bs, [])
    /\ List.concat bs = omap (record_of files self) (seq 0 (ImageListRaw_len self)).
Proof.
  intros Hall. unfold data_phase.
  change ([EOpen (map_size self mask_source); EBegin] ++ ?l)%list
    with (EOpen (map_size self mask_source) :: EBegin :: l).
  cbn [foldl txn_step fst snd]. rewrite foldl_app.
  pose proof (replay_records self write_frequency _ ([], []) Hall) as E.
  destruct (foldl txn_step _ (flat_map _ _)) as [bs cur].
  exists (bs ++ [cur])%list. split; [reflexivity|].
  unfold txn_all in E. simpl in E. rewrite List.concat_app. simpl.
  now rewrite app_nil_r.
Qed.

End Replay.

(** ** The store *)

Section StoreFacts.

Variable dumps_pyarrow : pyobj -> string.

Lemma db_lookup_other (l : list (string * pyobj)) (db : gmap string string) k :
  ~ In k (map fst l) ->
  foldl (fun db kv => <[kv.1 := dumps_pyarrow kv.2]> db) db l !! k = db !! k.
Proof.
  revert db. induction l as [|[k' o'] l IH]; intros db H; simpl; [done|].
  rewrite IH by (intros ?; apply H; now right).
  apply lookup_insert_ne. intros ->. apply H. now left.
Qed.

Lemma db_lookup_put (l : list (string * pyobj)) (db : gmap string string) k o :
  List.NoDup (map fst l) -> In (k, o) l ->
  foldl (fun db kv => <[kv.1 := dumps_pyarrow kv.2]> db) db l !! k
  = Some (dumps_pyarrow o).
Proof.
  revert db. induction l as [|[k' o'] l IH]; intros db N H; simpl; [destruct H|].
  inversion N as [|? ? Hk' N']; subst. destruct H as [[= -> ->] | H].
  - rewrite db_lookup_other by exact Hk'. apply lookup_insert_eq.
  - now apply IH.
Qed.

(** A key that was never put is not in the store. *)
Lemma db_of_log_never_put (log : list event) (k : string) :
  ~ In k (put_keys log) -> db_of_log dumps_pyarrow log !! k = None.
Proof.
  intros H. unfold db_of_log. rewrite db_lookup_other; [apply lookup_empty|].
  intros Hk. apply H. apply in_map_iff in Hk as ([k' o] & <- & Hk).
  apply committed_was_put in Hk. unfold put_keys.
  apply list_elem_of_In, list_elem_of_omap. exists (EPut k' o).
  split; [now apply list_elem_of_In | reflexivity].
Qed.

End StoreFacts.

(** ** Successful runs *)

Section Success.

Variable files : string -> option string.
Variable lmdb_ok : list event -> event -> bool.

Lemma built_from_nonempty attribute_name source mask_source image_list attribute
    max_class self :
  built_from attribute_name source mask_source image_list attribute max_class self ->
  (1 <= ImageListRaw_len self)%nat.
Proof.
  intros B. unfold ImageListRaw_len.
  destruct (built_from_length _ _ _ _ _ _ _ B) as [-> <-].
  destruct (bf_classnum _ _ _ _ _ _ _ B) as (m & Hm & _).
  destruct (targets self); simpl in *; [discriminate | lia].
Qed.

(** The log of a run that succeeds is the data phase followed by the
    finalization, over a dataset object built from the manifest whose
    items can all be resolved. *)
Lemma success_log attribute_name source mask_source image_list write_frequency log u :
  list2lmdb files lmdb_ok attribute_name source mask_source image_list
    write_frequency [] = (log, OK u) ->
  exists self attribute max_class,
    ImageListRaw_init attribute_name source mask_source image_list = OK self
    /\ built_from attribute_name source mask_source image_list attribute max_class self
    /\ log = (data_phase files self mask_source write_frequency
              ++ finalization self)%list
    /\ Forall (fun idx => is_Some (record_at files self idx))
         (seq 0 (ImageListRaw_len self))
    /\ write_frequency <> 0%Z.
Proof.
  intros H. apply list2lmdb_inv in H as [(e & _ & _ & [=]) | (self & Hinit & H)].
  destruct (ImageListRaw_init_OK _ _ _ _ _ Hinit) as (attribute & max_class & B).
  exists self, attribute, max_class. split; [exact Hinit|]. split; [exact B|].
  apply write_db_inv in H as [(e & ext & [=] & _) | (Hall & Hw & pre & ab & -> & _ & _ & Hok)].
  destruct (Hok u eq_refl) as [-> ->]. rewrite app_nil_r. simpl.
  repeat split; [exact Hall|]. apply Hw.
  pose proof (built_from_nonempty _ _ _ _ _ _ _ B). lia.
Qed.

Lemma put_keys_app (l1 l2 : list event) :
  put_keys (l1 ++ l2) = (put_keys l1 ++ put_keys l2)%list.
Proof. unfold put_keys. apply omap_app. Qed.

Lemma put_keys_records self write_frequency idxs :
  Forall (fun idx => is_Some (record_at files self idx)) idxs ->
  put_keys (flat_map (record_events files self write_frequency) idxs)
  = map Py.format_idx idxs.
Proof.
  induction 1 as [|idx idxs [[[p mp] obj] Hrec] _ IH]; simpl; [done|].
  rewrite put_keys_app, IH, (record_events_Some files _ write_frequency _ _ _ _ Hrec).
  unfold commit_events.
  now destruct (Z.of_nat idx mod write_frequency =? 0)%Z.
Qed.

(** The transactions of a successful run: those of the data phase, which
    together hold every record once, then the metadata transaction. *)
Lemma batches_success self mask_source write_frequency :
  Forall (fun idx => is_Some (record_at files self idx))
         (seq 0 (ImageListRaw_len self)) ->
  exists bs,
    batches (data_phase files self mask_source write_frequency
             ++ finalization self)
    = (bs ++ [[("__keys__", PyList (data_keys (ImageListRaw_len self)));
               ("__len__", PyInt (Z.of_nat (ImageListRaw_len self)));
               ("__classnum__", PyInt (classnum self))]])%list
    /\ List.concat bs = omap (record_of files self) (seq 0 (ImageListRaw_len self)).
Proof.
  intros Hall.
  destruct (replay_data_phase files self mask_source write_frequency Hall)
    as (bs & E & Hbs).
  exists bs. split; [|exact Hbs].
  unfold batches. now rewrite foldl_app, E.
Qed.

(** The puts a successful run has committed: every record once, in
    index order, then the three metadata entries. *)
Lemma committed_success self mask_source write_frequency :
  Forall (fun idx => is_Some (record_at files self idx))
         (seq 0 (ImageListRaw_len self)) ->
  committed (data_phase files self mask_source write_frequency ++ finalization self)
  = (omap (record_of files self) (seq 0 (ImageListRaw_len self))
     ++ [("__keys__", PyList (data_keys (ImageListRaw_len self)));
         ("__len__", PyInt (Z.of_nat (ImageListRaw_len self)));
         ("__classnum__", PyInt (classnum self))])%list.
Proof.
  intros Hall.
  destruct (batches_success self mask_source write_frequency Hall) as (bs & Eb & Hbs).
  unfold committed. now rewrite Eb, List.concat_app, Hbs.
Qed.

Lemma committed_success_keys self mask_source write_frequency :
  Forall (fun idx => is_Some (record_at files self idx))
         (seq 0 (ImageListRaw_len self)) ->
  map fst (committed (data_phase files self mask_source write_frequency
                      ++ finalization self))
  = (data_keys (ImageListRaw_len self) ++ META_KEYS)%list.
Proof.
  intros Hall. rewrite committed_success, map_app, records_keys by exact Hall.
  reflexivity.
Qed.

Lemma keys_NoDup (n : nat) : List.NoDup (data_keys n ++ META_KEYS).
Proof.
  apply NoDup_ListNoDup, NoDup_app. repeat split.
  - apply NoDup_ListNoDup, data_keys_NoDup.
  - intros k Hd Hm. apply list_elem_of_In in Hd, Hm.
    exact (data_keys_not_meta _ _ Hd Hm).
  - apply NoDup_ListNoDup. repeat constructor; simpl; intuition discriminate.
Qed.

(** What a reader finds in the store after a successful run. *)
Lemma db_success (dumps_pyarrow : pyobj -> string) self mask_source write_frequency k o :
  Forall (fun idx => is_Some (record_at files self idx))
         (seq 0 (ImageListRaw_len self)) ->
  In (k, o) (committed (data_phase files self mask_source write_frequency
                        ++ finalization self)) ->
  db_of_log dumps_pyarrow
    (data_phase files self mask_source write_frequency ++ finalization self) !! k
  = Some (dumps_pyarrow o).
Proof.
  intros Hall Hin. unfold db_of_log. apply db_lookup_put; [|exact Hin].
  rewrite committed_success_keys by exact Hall. apply keys_NoDup.
Qed.

End Success.

(** ** C1: sequential keys and metadata of a successful run *)

(** C1. When a run succeeds, with N >= 1 manifest entries surviving the
    filter, the keys it puts are, in order, the decimal numerals of
    0 .. N-1 followed by the three metadata keys; the numerals are pairwise
    distinct; the store holds exactly these keys; the value under
    [__len__] is the encoding of N and the value under [__keys__] is the
    encoding of the list of the N numerals in ascending index order. *)
Theorem C1_sequential_keys_and_metadata
    (files : string -> option string) (lmdb_ok : list event -> event -> bool)
    (dumps_pyarrow : pyobj -> string)
    (attribute_name : string) (source mask_source : option string)
    (image_list : list row) (write_frequency : Z)
    (attribute : nat) (max_class : max_label) (log : list event) :
  ATTRIBUTES !! attribute_name = Some attribute ->
  MAX_CLASS !! attribute_name = Some max_class ->
  list2lmdb files lmdb_ok attribute_name source mask_source image_list
    write_frequency [] = (log, OK tt) ->
  let N := length (surviving attribute max_class image_list) in
  let db := db_of_log dumps_pyarrow log in
  (1 <= N)%nat
  /\ put_keys log = (map Py.format_idx (seq 0 N) ++ META_KEYS)%list
  /\ List.NoDup (map Py.format_idx (seq 0 N))
  /\ (forall k, is_Some (db !! k)
                <-> In k (map Py.format_idx (seq 0 N)) \/ In k META_KEYS)
  /\ db !! "__len__" = Some (dumps_pyarrow (PyInt (Z.of_nat N)))
  /\ db !! "__keys__" = Some (dumps_pyarrow (PyList (map Py.format_idx (seq 0 N)))).
Proof.
  intros Hattr Hmax Hrun N db.
  apply success_log in Hrun
    as (self & attribute' & max_class' & _ & B & -> & Hall & _).
  pose proof (bf_attribute _ _ _ _ _ _ _ B) as E1.
  pose proof (bf_max_class _ _ _ _ _ _ _ B) as E2.
  rewrite Hattr in E1. rewrite Hmax in E2.
  injection E1 as <-. injection E2 as <-.
  assert (HN : ImageListRaw_len self = N).
  { unfold ImageListRaw_len. now destruct (built_from_length _ _ _ _ _ _ _ B). }
  pose proof (built_from_nonempty _ _ _ _ _ _ _ B) as H1. rewrite HN in H1.
  fold (data_keys N).
  set (l := committed (data_phase files self mask_source write_frequency
                       ++ finalization self)).
  assert (Hl : l = (omap (record_of files self) (seq 0 N)
                    ++ [("__keys__", PyList (data_keys N));
                        ("__len__", PyInt (Z.of_nat N));
                        ("__classnum__", PyInt (classnum self))])%list).
  { unfold l. rewrite committed_success by exact Hall. now rewrite HN. }
  assert (Hk : map fst l = (data_keys N ++ META_KEYS)%list).
  { unfold l. rewrite committed_success_keys by exact Hall. now rewrite HN. }
  assert (Hdb : forall k o, In (k, o) l -> db !! k = Some (dumps_pyarrow o)).
  { intros k o Hin. now apply db_success. }
  split; [exact H1|]. split; [|split; [apply data_keys_NoDup|split; [|split]]].
  - unfold data_phase, finalization. rewrite !put_keys_app.
    rewrite put_keys_records by exact Hall. rewrite HN. simpl.
    now rewrite app_nil_r.
  - intros k. rewrite <- in_app_iff, <- Hk. split.
    + intros [v Hv]. destruct (in_dec string_dec k (map fst l)) as [|Hn]; [done|].
      unfold db, db_of_log in Hv. fold l in Hv.
      rewrite db_lookup_other, lookup_empty in Hv by exact Hn. discriminate.
    + intros Hin. apply in_map_iff in Hin as ([k' o] & <- & Hin).
      exists (dumps_pyarrow o). exact (Hdb _ _ Hin).
  - apply Hdb. rewrite Hl. apply in_app_iff. right. simpl. auto.
  - apply Hdb. rewrite Hl. apply in_app_iff. right. simpl. auto.
Qed.

Lemma C1_sequential_keys_and_metadata_witness :
  let log :=
    (list2lmdb Demo.files Demo.lmdb_ok "gender" (Some "/img") (Some "/msk")
       Demo.image_list 5000 []).1 in
  let db := db_of_log Demo.dumps_pyarrow log in
  (1 <= 2)%nat
  /\ put_keys log = ["0"; "1"; "__keys__"; "__len__"; "__classnum__"]
  /\ List.NoDup ["0"; "1"]
  /\ (forall k, is_Some (db !! k) <-> In k ["0"; "1"] \/ In k META_KEYS)
  /\ db !! "__len__" = Some (Demo.dumps_pyarrow (PyInt 2))
  /\ db !! "__keys__" = Some (Demo.dumps_pyarrow (PyList ["0"; "1"])).
Proof.
  exact (C1_sequential_keys_and_metadata Demo.files Demo.lmdb_ok Demo.dumps_pyarrow
           "gender" (Some "/img") (Some "/msk") Demo.image_list 5000
           2%nat (Fin 1) _ eq_refl eq_refl eq_refl).
Defined.

(** ** Every event of every run *)

Section AnyRun.

Variable files : string -> option string.
Variable lmdb_ok : list event -> event -> bool.

Lemma record_at_Some self idx p mp obj :
  record_at files self idx = Some (p, mp, obj) ->
  exists img label mask l,
    samples self !! idx = Some p /\ masks self = MasksList l /\ l !! idx = Some mp
    /\ targets self !! idx = Some label
    /\ files p = Some img /\ files mp = Some mask
    /\ obj = PyTuple3 img label mask.
Proof.
  unfold record_at. intros H.
  destruct (samples self !! idx) as [p'|]; [|discriminate].
  destruct (masks self) as [| |l]; try discriminate.
  destruct (targets self !! idx) as [label|]; [|discriminate].
  destruct (files p') as [img|] eqn:Hi; [|discriminate].
  destruct (l !! idx) as [mp'|] eqn:Hl; [|discriminate].
  destruct (files mp') as [mask|] eqn:Hm; [|discriminate].
  injection H as <- <- <-. exists img, label, mask, l. repeat split; auto.
Qed.

Lemma record_events_loop_event self write_frequency idx :
  Forall (loop_event files self) (record_events files self write_frequency idx).
Proof.
  unfold record_events. apply Forall_app. split.
  - destruct (record_at files self idx) as [[[p mp] obj]|] eqn:Hrec; [|constructor].
    destruct (record_at_Some _ _ _ _ _ Hrec)
      as (img & label & mask & l & Hp & Hl & Hmp & _).
    constructor; [|constructor; [|constructor; [|constructor]]].
    + left. exists p. split; [done|]. left.
      apply list_elem_of_In. eapply list_elem_of_lookup_2; eauto.
    + left. exists mp. split; [done|]. right. exists l. split; [done|].
      apply list_elem_of_In. eapply list_elem_of_lookup_2; eauto.
    + right; left. exists idx, p, mp, obj. auto.
  - unfold commit_events.
    destruct (Z.of_nat idx mod write_frequency =? 0)%Z; [|constructor].
    constructor; [|constructor; [|constructor]]; unfold loop_event; auto.
Qed.

(** Whatever happens, a run performs only events of the dataset object it
    built and of the finalization. *)
Lemma write_db_events self mask_source write_frequency log r :
  write_db files lmdb_ok self mask_source write_frequency [] = (log, r) ->
  Forall (run_event files self mask_source) log.
Proof.
  intros H. apply write_db_inv in H
    as [(e & ext & _ & -> & H) | (_ & _ & pre & ab & -> & [suf Hpre] & Hab & _)].
  - simpl. eapply Forall_impl; [exact H|]. intros ev Hev. now left.
  - rewrite app_nil_l. unfold data_phase. rewrite <- !app_assoc. simpl.
    constructor; [left; now right|].
    constructor; [left; left; unfold loop_event; auto|].
    apply Forall_app. split.
    { apply Forall_flat_map, Forall_forall. intros idx _.
      eapply Forall_impl; [apply record_events_loop_event|].
      intros ev Hev. left. now left. }
    constructor; [left; left; unfold loop_event; auto|].
    apply Forall_app. split.
    + apply Forall_forall. intros ev Hev. right; left. rewrite Hpre.
      apply in_app_iff. left. now apply list_elem_of_In.
    + destruct Hab as [-> | ->]; constructor; [|constructor]. right. now right.
Qed.

End AnyRun.

(** ** C2: only in-range labels reach the store *)

Lemma surviving_In attribute max_class image_list r :
  In r (surviving attribute max_class image_list) <->
  In r image_list
  /\ exists z, label_of attribute r = Some z
       /\ (0 <= z)%Z /\ le_max z max_class = true.
Proof.
  unfold surviving. rewrite filter_In. split; intros [Hin H]; (split; [exact Hin|]).
  - destruct (label_of attribute r) as [z|]; [|discriminate].
    unfold in_range in H. apply andb_true_iff in H as [H1 H2].
    exists z. repeat split; [lia | exact H2].
  - destruct H as (z & -> & H1 & H2). unfold in_range.
    apply andb_true_iff. split; [lia | exact H2].
Qed.

Lemma le_max_at_most (z : Z) (m : max_label) :
  le_max z m = true <-> at_most z m.
Proof.
  destruct m as [k|]; simpl; [apply Z.leb_le | tauto].
Qed.

(** C2. In every run, successful or not, each record put into the store
    carries a label [l] with [0 <= l], and [l <= k] when the attribute's
    [MAX_CLASS] entry is the integer [k]. The rows failing the check are
    dropped by the loader, which touches neither files nor the store: the
    dataset object holds exactly the surviving rows, which are the rows of
    the manifest whose label [z] has [0 <= z] and [z <= k]; when the loader
    raises nothing at all has happened, and every file the run reads is the
    image or the mask of a surviving row. *)
Theorem C2_labels_in_range
    (files : string -> option string) (lmdb_ok : list event -> event -> bool)
    (attribute_name : string) (source mask_source : option string)
    (image_list : list row) (write_frequency : Z)
    (attribute : nat) (max_class : max_label)
    (log : list event) (r : result unit) :
  ATTRIBUTES !! attribute_name = Some attribute ->
  MAX_CLASS !! attribute_name = Some max_class ->
  list2lmdb files lmdb_ok attribute_name source mask_source image_list
    write_frequency [] = (log, r) ->
  (forall key obj label,
      In (EPut key obj) log -> obj_label obj = Some label ->
      (0 <= label)%Z /\ at_most label max_class)
  /\ (forall self,
        ImageListRaw_init attribute_name source mask_source image_list = OK self ->
        samples self
        = map (sample_path source) (surviving attribute max_class image_list)
        /\ Forall2 (fun r z => label_of attribute r = Some z)
             (surviving attribute max_class image_list) (targets self))
  /\ (forall row,
        In row (surviving attribute max_class image_list) <->
        In row image_list
        /\ exists z, label_of attribute row = Some z
             /\ (0 <= z)%Z /\ at_most z max_class)
  /\ (forall e,
        ImageListRaw_init attribute_name source mask_source image_list = Raise e ->
        log = [])
  /\ (forall p,
        In (ERead p) log ->
        exists row,
          In row (surviving attribute max_class image_list)
          /\ (p = sample_path source row
              \/ exists mk, mask_source = Some mk
                            /\ p = mask_path mk (sample_ref row))).
Proof.
  intros Hattr Hmax Hrun.
  assert (Hsamples : forall self attribute' max_class',
    built_from attribute_name source mask_source image_list attribute' max_class' self ->
    attribute' = attribute /\ max_class' = max_class
    /\ samples self = map (sample_path source) (surviving attribute max_class image_list)).
  { intros self a' m' B.
    pose proof (bf_attribute _ _ _ _ _ _ _ B) as E1.
    pose proof (bf_max_class _ _ _ _ _ _ _ B) as E2.
    rewrite Hattr in E1. rewrite Hmax in E2. injection E1 as <-. injection E2 as <-.
    repeat split. rewrite (bf_samples _ _ _ _ _ _ _ B).
    destruct source; simpl; [now rewrite map_map | reflexivity]. }
  apply list2lmdb_inv in Hrun as [(e & Hinit & -> & ->) | (self & Hinit & Hrun)].
  { split; [|split; [|split; [|split]]].
    - intros key obj label [].
    - intros self Hself. congruence.
    - intros row. rewrite surviving_In. now setoid_rewrite le_max_at_most.
    - reflexivity.
    - intros p []. }
  destruct (ImageListRaw_init_OK _ _ _ _ _ Hinit) as (attribute' & max_class' & B).
  destruct (Hsamples _ _ _ B) as (-> & -> & Hs).
  apply write_db_events in Hrun. rewrite List.Forall_forall in Hrun.
  split; [|split; [|split; [|split]]].
  - intros key obj label Hin Hlabel.
    destruct (Hrun _ Hin) as [[[Hev | [Hev | [Hev | Hev]]] | Hev] | [Hev | Hev]];
      try discriminate.
    + destruct Hev as (p & [=] & _).
    + destruct Hev as (idx & p & mp & obj' & [= _ <-] & Hrec).
      apply record_at_Some in Hrec
        as (img & label' & mask & l & _ & _ & _ & Ht & _ & _ & ->).
      injection Hlabel as <-.
      apply list_elem_of_lookup_2, list_elem_of_In in Ht.
      pose proof (bf_in_range _ _ _ _ _ _ _ B) as Hr.
      rewrite List.Forall_forall in Hr. specialize (Hr _ Ht).
      unfold in_range in Hr. apply andb_true_iff in Hr as [H1 H2].
      split; [lia | now apply le_max_at_most].
    + simpl in Hev.
      repeat (destruct Hev as [Hev | Hev];
              [try discriminate; injection Hev as <- <-; discriminate|]).
      destruct Hev.
  - intros self' Hself'. rewrite Hinit in Hself'. injection Hself' as <-.
    split; [exact Hs | exact (bf_targets _ _ _ _ _ _ _ B)].
  - intros row. rewrite surviving_In. now setoid_rewrite le_max_at_most.
  - intros e He. congruence.
  - intros p Hin.
    destruct (Hrun _ Hin) as [[[Hev | [Hev | [Hev | Hev]]] | Hev] | [Hev | Hev]];
      try discriminate.
    + destruct Hev as (p' & [= <-] & [Hp | (l & Hl & Hp)]).
      * rewrite Hs in Hp. apply in_map_iff in Hp as (row & <- & Hrow).
        exists row. auto.
      * rewrite (bf_masks _ _ _ _ _ _ _ B) in Hl.
        destruct source as [src|]; [|discriminate].
        destruct mask_source as [mk|]; [|discriminate].
        injection Hl as <-. rewrite map_map in Hp.
        apply in_map_iff in Hp as (row & <- & Hrow).
        exists row. split; [exact Hrow|]. right. exists mk. auto.
    + destruct Hev as (idx & p' & mp & obj' & [=] & _).
    + simpl in Hev. repeat (destruct Hev as [Hev | Hev]; [discriminate|]).
      destruct Hev.
Qed.

Lemma C2_labels_in_range_witness :
  let log :=
    (list2lmdb Demo.files Demo.lmdb_ok "gender" (Some "/img") (Some "/msk")
       Demo.image_list 5000 []).1 in
  (forall key obj label,
      In (EPut key obj) log -> obj_label obj = Some label ->
      (0 <= label <= 1)%Z)
  /\ (forall self,
        ImageListRaw_init "gender" (Some "/img") (Some "/msk") Demo.image_list
        = OK self ->
        samples self
        = map (sample_path (Some "/img")) (surviving 2 (Fin 1) Demo.image_list)
        /\ Forall2 (fun r z => label_of 2 r = Some z)
             (surviving 2 (Fin 1) Demo.image_list) (targets self))
  /\ (forall row,
        In row (surviving 2 (Fin 1) Demo.image_list) <->
        In row Demo.image_list
        /\ exists z, label_of 2 row = Some z /\ (0 <= z <= 1)%Z)
  /\ (forall e,
        ImageListRaw_init "gender" (Some "/img") (Some "/msk") Demo.image_list
        = Raise e -> log = [])
  /\ (forall p,
        In (ERead p) log ->
        exists row,
          In row (surviving 2 (Fin 1) Demo.image_list)
          /\ (p = sample_path (Some "/img") row
              \/ exists mk, Some "/msk" = Some mk
                            /\ p = mask_path mk (sample_ref row))).
Proof.
  exact (C2_labels_in_range Demo.files Demo.lmdb_ok
           "gender" (Some "/img") (Some "/msk") Demo.image_list 5000
           2%nat (Fin 1) _ (OK tt) eq_refl eq_refl eq_refl).
Defined.

(** ** C3: columns and bounds of the attributes *)

Lemma ATTRIBUTES_cases attribute_name attribute max_class :
  ATTRIBUTES !! attribute_name = Some attribute ->
  MAX_CLASS !! attribute_name = Some max_class ->
  (attribute_name = "race" /\ attribute = 1%nat /\ max_class = Fin 4)
  \/ (attribute_name = "gender" /\ attribute = 2%nat /\ max_class = Fin 1)
  \/ (attribute_name = "age" /\ attribute = 3%nat /\ max_class = Fin 100)
  \/ (attribute_name = "recognition" /\ attribute = 1%nat /\ max_class = Inf).
Proof.
  unfold ATTRIBUTES, MAX_CLASS. intros Ha Hm.
  apply elem_of_list_to_map_2 in Ha. apply elem_of_list_to_map_2 in Hm.
  repeat (apply elem_of_cons in Ha as [Ha | Ha]);
    try (apply elem_of_nil in Ha; destruct Ha);
    injection Ha as -> ->;
    repeat (apply elem_of_cons in Hm as [Hm | Hm]);
    try (apply elem_of_nil in Hm; destruct Hm);
    try discriminate; injection Hm as <-; auto 10.
Qed.

(** C3, as stated, fails. With the attribute [recognition] the loader takes
    the label of a row from column 1, not from column 4: the row
    [a.jpg 0 1 30 7] gets label 0. With the attribute [age] a label above
    100 is dropped: of two rows with ages 101 and 30 only the second
    survives. *)
Lemma C3_counterexample :
  (exists self,
     ImageListRaw_init "recognition" (Some "/img") (Some "/msk")
       [Row "a.jpg" [0; 1; 30; 7]%Z] = OK self
     /\ targets self = [0%Z])
  /\ (exists self,
       ImageListRaw_init "age" (Some "/img") (Some "/msk")
         [Row "a.jpg" [0; 1; 101; 7]%Z; Row "b.jpg" [0; 1; 30; 7]%Z] = OK self
       /\ samples self = ["/img/b.jpg"] /\ targets self = [30%Z])
  /\ ~ loader_follows spec_ATTRIBUTES spec_MAX_CLASS.
Proof.
  split; [|split].
  - eexists. split; [vm_compute; reflexivity | reflexivity].
  - eexists. split; [vm_compute; reflexivity | split; reflexivity].
  - intros H.
    assert (E : ImageListRaw_init "recognition" (Some "/img") (Some "/msk")
                  [Row "a.jpg" [0; 1; 30; 7]%Z]
                = OK {| samples := ["/img/a.jpg"];
                        masks := MasksList ["/msk/a_mask.png"];
                        targets := [0%Z]; classnum := 1 |})
      by (vm_compute; reflexivity).
    destruct (H _ _ _ _ _ E) as (attribute & max_class & Ha & Hm & Hf).
    assert (Ea : spec_ATTRIBUTES !! "recognition" = Some 4%nat)
      by (vm_compute; reflexivity).
    assert (Em : spec_MAX_CLASS !! "recognition" = Some Inf)
      by (vm_compute; reflexivity).
    rewrite Ea in Ha. rewrite Em in Hm. injection Ha as <-. injection Hm as <-.
    inversion Hf as [|? ? ? ? Hl _]. discriminate.
Qed.

(** C3, amended. The loader reads the label from the column that
    [ATTRIBUTES] gives and keeps the rows whose label is non-negative and
    within the bound that [MAX_CLASS] gives: race column 1 and at most 4,
    gender column 2 and at most 1, age column 3 and at most 100,
    recognition column 1 and no upper bound. For age the class count is the
    largest label kept. *)
Theorem C3_columns_and_bounds
    (attribute_name : string) (source mask_source : option string)
    (image_list : list row) (self : ImageListRaw) :
  ImageListRaw_init attribute_name source mask_source image_list = OK self ->
  exists attribute max_class,
    ((attribute_name = "race" /\ attribute = 1%nat /\ max_class = Fin 4)
     \/ (attribute_name = "gender" /\ attribute = 2%nat /\ max_class = Fin 1)
     \/ (attribute_name = "age" /\ attribute = 3%nat /\ max_class = Fin 100)
     \/ (attribute_name = "recognition" /\ attribute = 1%nat /\ max_class = Inf))
    /\ Forall2 (fun r z => label_of attribute r = Some z)
         (surviving attribute max_class image_list) (targets self)
    /\ (attribute_name = "age" ->
        In (classnum self) (targets self)
        /\ Forall (fun z => (z <= classnum self)%Z) (targets self)).
Proof.
  intros Hinit.
  destruct (ImageListRaw_init_OK _ _ _ _ _ Hinit) as (attribute & max_class & B).
  exists attribute, max_class. split; [|split].
  - exact (ATTRIBUTES_cases _ _ _ (bf_attribute _ _ _ _ _ _ _ B)
             (bf_max_class _ _ _ _ _ _ _ B)).
  - exact (bf_targets _ _ _ _ _ _ _ B).
  - intros ->. destruct (bf_classnum _ _ _ _ _ _ _ B) as (m & Hm & Hc).
    simpl in Hc. rewrite Hc. now apply np_max_OK.
Qed.

Lemma C3_columns_and_bounds_witness :
  exists attribute max_class,
    (("age" = "race" /\ attribute = 1%nat /\ max_class = Fin 4)
     \/ ("age" = "gender" /\ attribute = 2%nat /\ max_class = Fin 1)
     \/ ("age" = "age" /\ attribute = 3%nat /\ max_class = Fin 100)
     \/ ("age" = "recognition" /\ attribute = 1%nat /\ max_class = Inf))
    /\ Forall2 (fun r z => label_of attribute r = Some z)
         (surviving attribute max_class
            [Row "a.jpg" [0; 1; 101; 7]%Z; Row "b.jpg" [0; 1; 30; 7]%Z])
         [30%Z]
    /\ ("age" = "age" -> In 30%Z [30%Z] /\ Forall (fun z => (z <= 30)%Z) [30%Z]).
Proof.
  exact (C3_columns_and_bounds "age" (Some "/img") (Some "/msk")
           [Row "a.jpg" [0; 1; 101; 7]%Z; Row "b.jpg" [0; 1; 30; 7]%Z]
           {| samples := ["/img/b.jpg"]; masks := MasksList ["/msk/b_mask.png"];
              targets := [30%Z]; classnum := 30 |} eq_refl).
Defined.

(** ** C4: the class count *)

(** C4, as stated, fails for the attribute [recognition], whose labels are
    not bounded above: they are 64-bit integers, and on a manifest whose
    largest label is 2^63 - 1 the [+ 1] wraps around, so the class count
    stored is -2^63 and not the largest label plus one. *)
Lemma C4_counterexample :
  let image_list := [Row "a.jpg" [9223372036854775807%Z]] in
  let outcome :=
    list2lmdb Demo.files Demo.lmdb_ok "recognition" (Some "/img") (Some "/msk")
      image_list 5000 [] in
  outcome.2 = OK tt
  /\ surviving 1 Inf image_list = image_list
  /\ In ("__classnum__", PyInt (-9223372036854775808)) (committed outcome.1)
  /\ db_of_log Demo.dumps_pyarrow outcome.1 !! "__classnum__"
     = Some "I:-9223372036854775808"
  /\ (-9223372036854775808 <> 9223372036854775807 + 1)%Z.
Proof.
  split; [vm_compute; reflexivity|]. split; [reflexivity|].
  split; [vm_compute; auto 10|]. split; [vm_compute; reflexivity | discriminate].
Qed.

Lemma Forall2_In_r {A B} (P : A -> B -> Prop) (l1 : list A) (l2 : list B) (y : B) :
  Forall2 P l1 l2 -> In y l2 -> exists x, In x l1 /\ P x y.
Proof.
  induction 1 as [|x y' l1 l2 Hxy _ IH]; intros Hin; [destruct Hin|].
  destruct Hin as [<- | Hin]; [exists x; split; [now left | exact Hxy]|].
  destruct (IH Hin) as (x' & Hx' & Hp). exists x'. split; [now right | exact Hp].
Qed.

Lemma wrap64_small (z : Z) :
  (int64_min <= z <= int64_max)%Z -> wrap64 z = z.
Proof.
  unfold wrap64, int64_min, int64_max. intros H.
  rewrite Z.mod_small by lia. lia.
Qed.

Lemma label_of_int64 attribute r z :
  label_of attribute r = Some z -> (int64_min <= z <= int64_max)%Z.
Proof.
  unfold label_of, cell_int. destruct attribute as [|j]; [discriminate|].
  destruct (cells r !! j) as [c|]; [|discriminate].
  destruct (in_int64 c) eqn:Hc; [|discriminate]. intros [= <-].
  unfold in_int64 in Hc. apply andb_true_iff in Hc as [H1 H2]. lia.
Qed.

(** C4, amended. After a successful run the value under [__classnum__] is
    the encoding of the class count of the dataset object, computed from
    the largest label [m] that survived the filter: [m] itself for the
    attribute [age], and otherwise [m + 1] reduced to a signed 64-bit
    integer, which is [m + 1] whenever [m] is below 2^63 - 1, as it always
    is for [race] and [gender]. *)
Theorem C4_classnum
    (files : string -> option string) (lmdb_ok : list event -> event -> bool)
    (dumps_pyarrow : pyobj -> string)
    (attribute_name : string) (source mask_source : option string)
    (image_list : list row) (write_frequency : Z)
    (attribute : nat) (max_class : max_label) (log : list event) :
  ATTRIBUTES !! attribute_name = Some attribute ->
  MAX_CLASS !! attribute_name = Some max_class ->
  list2lmdb files lmdb_ok attribute_name source mask_source image_list
    write_frequency [] = (log, OK tt) ->
  exists (labels : list Z) (m c : Z),
    Forall2 (fun r z => label_of attribute r = Some z)
      (surviving attribute max_class image_list) labels
    /\ In m labels /\ Forall (fun z => (z <= m)%Z) labels
    /\ db_of_log dumps_pyarrow log !! "__classnum__" = Some (dumps_pyarrow (PyInt c))
    /\ (attribute_name = "age" -> c = m)
    /\ (attribute_name <> "age" ->
        c = wrap64 (m + 1) /\ ((m < int64_max)%Z -> c = (m + 1)%Z))
    /\ (attribute_name = "race" \/ attribute_name = "gender" -> c = (m + 1)%Z).
Proof.
  intros Hattr Hmax Hrun.
  apply success_log in Hrun
    as (self & attribute' & max_class' & _ & B & -> & Hall & _).
  pose proof (bf_attribute _ _ _ _ _ _ _ B) as E1.
  pose proof (bf_max_class _ _ _ _ _ _ _ B) as E2.
  rewrite Hattr in E1. rewrite Hmax in E2.
  injection E1 as <-. injection E2 as <-.
  destruct (bf_classnum _ _ _ _ _ _ _ B) as (m & Hm & Hc).
  destruct (np_max_OK _ _ Hm) as [Hin Hle].
  exists (targets self), m, (classnum self).
  split; [exact (bf_targets _ _ _ _ _ _ _ B)|]. split; [exact Hin|].
  split; [exact Hle|]. split.
  { apply db_success; [exact Hall|]. rewrite committed_success by exact Hall.
    apply in_app_iff. right. simpl. auto. }
  pose proof (bf_in_range _ _ _ _ _ _ _ B) as Hr.
  rewrite List.Forall_forall in Hr. specialize (Hr _ Hin).
  unfold in_range in Hr. apply andb_true_iff in Hr as [H0 Hb].
  assert (Hhi : (m <= int64_max)%Z).
  { destruct (Forall2_In_r _ _ _ _ (bf_targets _ _ _ _ _ _ _ B) Hin) as (r & _ & Hr).
    apply label_of_int64 in Hr. lia. }
  assert (Hsmall : (m < int64_max)%Z -> wrap64 (m + 1) = (m + 1)%Z).
  { intros Hlt. apply wrap64_small. unfold int64_min, int64_max in *. lia. }
  split; [|split].
  - intros ->. simpl in Hc. exact Hc.
  - intros Hne. apply String.eqb_neq in Hne. rewrite Hne in Hc.
    split; [exact Hc|]. intros Hlt. now rewrite Hc, Hsmall.
  - intros Hrg.
    destruct (ATTRIBUTES_cases _ _ _ Hattr Hmax)
      as [(-> & _ & ->) | [(-> & _ & ->) | [(-> & _) | (-> & _)]]];
      try (destruct Hrg; discriminate);
      simpl in Hc, Hb; rewrite Hc; apply Hsmall; unfold int64_max; lia.
Qed.

Lemma C4_classnum_witness :
  exists (labels : list Z) (m c : Z),
    Forall2 (fun r z => label_of 2 r = Some z)
      (surviving 2 (Fin 1) Demo.image_list) labels
    /\ In m labels /\ Forall (fun z => (z <= m)%Z) labels
    /\ db_of_log Demo.dumps_pyarrow
         (list2lmdb Demo.files Demo.lmdb_ok "gender" (Some "/img") (Some "/msk")
            Demo.image_list 5000 []).1 !! "__classnum__"
       = Some (Demo.dumps_pyarrow (PyInt c))
    /\ ("gender" = "age" -> c = m)
    /\ ("gender" <> "age" ->
        c = wrap64 (m + 1) /\ ((m < int64_max)%Z -> c = (m + 1)%Z))
    /\ ("gender" = "race" \/ "gender" = "gender" -> c = (m + 1)%Z).
Proof.
  exact (C4_classnum Demo.files Demo.lmdb_ok Demo.dumps_pyarrow
           "gender" (Some "/img") (Some "/msk") Demo.image_list 5000
           2%nat (Fin 1) _ eq_refl eq_refl eq_refl).
Defined.

(** ** C5: runs without a mask root *)

Section NoMask.

Variable files : string -> option string.
Variable lmdb_ok : list event -> event -> bool.

Lemma put_keys_In (log : list event) (k : string) :
  In k (put_keys log) <-> exists obj, In (EPut k obj) log.
Proof.
  unfold put_keys. rewrite <- list_elem_of_In, list_elem_of_omap. split.
  - intros (e & He & Hk). destruct e; try discriminate. injection Hk as ->.
    eexists. apply list_elem_of_In. exact He.
  - intros (obj & H). exists (EPut k obj). split; [now apply list_elem_of_In | done].
Qed.

(** A run that stops early has put nothing but records of dataset items
    under their sequential keys. *)
Lemma early_event_put self mask_source ext k obj :
  Forall (early_event files self mask_source) ext ->
  In (EPut k obj) ext ->
  exists idx p mp, k = Py.format_idx idx /\ record_at files self idx = Some (p, mp, obj).
Proof.
  intros H Hin. rewrite List.Forall_forall in H.
  destruct (H _ Hin) as [[Hev | [Hev | [Hev | Hev]]] | Hev]; try discriminate.
  - destruct Hev as (p & [=] & _).
  - destruct Hev as (idx & p & mp & obj' & [= -> ->] & Hrec). eauto.
Qed.

(** Without a mask root no item of the dataset can be resolved. *)
Lemma no_mask_no_record attribute_name source image_list self idx :
  ImageListRaw_init attribute_name source None image_list = OK self ->
  record_at files self idx = None.
Proof.
  intros Hinit.
  destruct (ImageListRaw_init_OK _ _ _ _ _ Hinit) as (attribute & max_class & B).
  pose proof (bf_masks _ _ _ _ _ _ _ B) as Hm.
  unfold record_at. destruct (samples self !! idx); [|done].
  destruct source; rewrite Hm; done.
Qed.

(** Whatever the manifest, the attribute, the files and the store, a run
    without a mask root raises and puts nothing. *)
Lemma no_mask_root_never_puts attribute_name source image_list write_frequency log r :
  list2lmdb files lmdb_ok attribute_name source None image_list write_frequency []
  = (log, r) ->
  (exists e, r = Raise e) /\ put_keys log = [].
Proof.
  intros H. apply list2lmdb_inv in H as [(e & _ & -> & ->) | (self & Hinit & H)].
  { split; [eauto | reflexivity]. }
  pose proof (fun idx => no_mask_no_record _ _ _ _ idx Hinit) as Hnone.
  destruct (ImageListRaw_init_OK _ _ _ _ _ Hinit) as (attribute & max_class & B).
  pose proof (built_from_nonempty _ _ _ _ _ _ _ B) as HN.
  apply write_db_inv in H as [(e & ext & -> & -> & Hext) | (Hall & _)].
  - split; [eauto|]. simpl.
    destruct (put_keys ext) as [|k ks] eqn:Hk; [done|].
    assert (Hin : In k (put_keys ext)) by (rewrite Hk; now left).
    apply put_keys_In in Hin as (obj & Hin).
    destruct (early_event_put _ _ _ _ _ Hext Hin) as (idx & p & mp & _ & Hrec).
    rewrite Hnone in Hrec. discriminate.
  - destruct (ImageListRaw_len self) as [|n]; [lia|].
    simpl in Hall. inversion Hall as [|? ? [x Hx] _]. rewrite Hnone in Hx.
    discriminate.
Qed.

End NoMask.

(** C5 (defect of the code). With an image root and no mask root,
    [__getitem__] reads the first image and then raises, because its local
    variable [mask] was never bound: the run stops before its first put and
    no two-element tuple is ever stored. With no image root either, the
    attribute [masks] does not exist and the run stops in the same
    place. *)
Theorem C5_no_mask_root_raises :
  list2lmdb Demo.files Demo.lmdb_ok "gender" (Some "/img") None Demo.image_list 5000 []
  = ([EOpen 602112; EBegin; ERead "/img/a.jpg"], Raise UnboundLocalError)
  /\ list2lmdb Demo.files Demo.lmdb_ok "gender" None None
       [Row "/img/a.jpg" [0; 0; 30; 7]%Z] 5000 []
     = ([EOpen 301056; EBegin; ERead "/img/a.jpg"], Raise AttributeError).
Proof. split; vm_compute; reflexivity. Qed.

(** ** C6: metadata only after the data records *)

Lemma split_after {A} (d t l1 l2 : list A) (x : A) :
  (l1 ++ x :: l2 = d ++ t)%list -> ~ In x d ->
  exists t1, l1 = (d ++ t1)%list /\ t = (t1 ++ x :: l2)%list.
Proof.
  revert l1. induction d as [|y d IH]; intros l1 H Hx; simpl in *.
  { exists l1. auto. }
  destruct l1 as [|z l1]; simpl in H.
  - injection H as -> _. exfalso. apply Hx. now left.
  - injection H as -> H. destruct (IH l1 H) as (t1 & -> & ->).
    + intros Hin. apply Hx. now right.
    + exists t1. auto.
Qed.

Lemma split_lookup {A} (l t1 l2 : list A) (x : A) :
  l = (t1 ++ x :: l2)%list ->
  t1 = take (length t1) l /\ l !! length t1 = Some x.
Proof.
  intros ->. split.
  - now rewrite take_app_length.
  - now rewrite list_lookup_middle.
Qed.

Lemma replay_no_commit (t : list event) st :
  Forall (fun e => e <> ECommit) t -> (foldl txn_step st t).1 = st.1.
Proof.
  intros H. revert st. induction H as [|e t He _ IH]; intros st; simpl; [done|].
  rewrite IH. destruct e; simpl; congruence.
Qed.

Ltac enum_prefix E pre tac :=
  destruct pre as [|? pre];
  [ tac
  | simpl in E;
    first [ discriminate E | injection E as <- E; enum_prefix E pre tac ] ].

(** In what a run does after the data phase, nothing is committed before a
    put. *)
Lemma finalization_put_position self pre ab t1 key obj l2 :
  pre `prefix_of` finalization self -> ab = [] \/ ab = [EAbort] ->
  (pre ++ ab = t1 ++ EPut key obj :: l2)%list ->
  Forall (fun e => e <> ECommit) t1.
Proof.
  intros [suf E] Hab H. unfold finalization in E.
  destruct (split_lookup _ _ _ _ H) as [Ht Hl]. rewrite Ht. clear Ht H.
  revert Hl. generalize (length t1). clear t1. intros n Hl.
  enum_prefix E pre
    ltac:(destruct Hab as [-> | ->]; simpl in Hl |- *;
          repeat (destruct n as [|n]; simpl in Hl |- *;
                  [try discriminate Hl;
                   repeat (constructor; [discriminate|]); constructor|]);
          try discriminate Hl; destruct n; discriminate Hl).
Qed.

Section Metadata.

Variable files : string -> option string.
Variable lmdb_ok : list event -> event -> bool.

Lemma data_phase_put self mask_source write_frequency k obj :
  In (EPut k obj) (data_phase files self mask_source write_frequency) ->
  exists idx, k = Py.format_idx idx.
Proof.
  unfold data_phase. simpl. intros [H | [H | H]]; try discriminate.
  apply in_app_iff in H as [H | [H | []]]; [|discriminate].
  apply in_flat_map in H as (idx & _ & H).
  pose proof (record_events_loop_event files self write_frequency idx) as L.
  rewrite List.Forall_forall in L.
  destruct (L _ H) as [Hev | [Hev | [Hev | Hev]]]; try discriminate.
  - destruct Hev as (p & [=] & _).
  - destruct Hev as (idx' & p & mp & obj' & [= -> _] & _). eauto.
Qed.

(** A run that stopped early put no metadata key. *)
Lemma early_no_meta self mask_source ext key :
  Forall (early_event files self mask_source) ext ->
  In key META_KEYS -> ~ In key (put_keys ext).
Proof.
  intros Hext Hmeta Hin. apply put_keys_In in Hin as (obj & Hin).
  destruct (early_event_put _ _ _ _ _ _ Hext Hin) as (idx & _ & _ & -> & _).
  exact (format_idx_not_meta idx Hmeta).
Qed.

End Metadata.

(** C6. In every run, a put of one of the three metadata keys comes only
    after every data record has been committed: the puts committed before
    it are exactly those of the keys 0 .. N-1. A run either performs the
    whole data phase (every record resolved, put and committed) or raises
    without ever putting a metadata key, so that a store that was empty
    before has no metadata key afterwards; the latter is what happens when
    some record cannot be resolved. *)
Theorem C6_metadata_after_data
    (files : string -> option string) (lmdb_ok : list event -> event -> bool)
    (dumps_pyarrow : pyobj -> string)
    (attribute_name : string) (source mask_source : option string)
    (image_list : list row) (write_frequency : Z)
    (self : ImageListRaw) (log : list event) (r : result unit) :
  ImageListRaw_init attribute_name source mask_source image_list = OK self ->
  list2lmdb files lmdb_ok attribute_name source mask_source image_list
    write_frequency [] = (log, r) ->
  let N := ImageListRaw_len self in
  let no_metadata :=
    (exists e, r = Raise e)
    /\ forall key, In key META_KEYS ->
         ~ In key (put_keys log) /\ db_of_log dumps_pyarrow log !! key = None in
  (forall l1 key obj l2,
      log = (l1 ++ EPut key obj :: l2)%list -> In key META_KEYS ->
      map fst (committed l1) = map Py.format_idx (seq 0 N))
  /\ (data_phase files self mask_source write_frequency `prefix_of` log
      \/ no_metadata)
  /\ ((exists idx, (idx < N)%nat /\ record_at files self idx = None) ->
      no_metadata).
Proof.
  intros Hinit Hrun N no_metadata.
  apply list2lmdb_inv in Hrun as [(e & He & _) | (self' & Hinit' & Hrun)];
    [congruence|].
  rewrite Hinit in Hinit'. injection Hinit' as <-.
  apply write_db_inv in Hrun
    as [(e & ext & -> & -> & Hext) | (Hall & _ & pre & ab & -> & Hpre & Hab & _)];
    rewrite app_nil_l in *.
  - (* the run stopped before the end of the data phase *)
    assert (Hno : no_metadata).
    { split; [eauto|]. intros key Hmeta.
      pose proof (early_no_meta _ _ _ _ _ Hext Hmeta) as Hk.
      split; [exact Hk | now apply db_of_log_never_put]. }
    split; [|split; [now right | intros _; exact Hno]].
    intros l1 key obj l2 -> Hmeta. exfalso.
    apply (early_no_meta _ _ _ _ _ Hext Hmeta), put_keys_In.
    exists obj. apply in_app_iff. right. now left.
  - (* the whole data phase took place *)
    split; [|split].
    + intros l1 key obj l2 Hlog Hmeta. symmetry in Hlog.
      apply split_after in Hlog as (t1 & -> & Ht).
      2:{ intros Hin. apply data_phase_put in Hin as (idx & ->).
          exact (format_idx_not_meta idx Hmeta). }
      apply (finalization_put_position self) in Ht; [|exact Hpre|exact Hab].
      destruct (replay_data_phase files self mask_source write_frequency Hall)
        as (bs & E & Hbs).
      unfold committed, batches.
      rewrite foldl_app, E, (replay_no_commit _ _ Ht). simpl.
      rewrite Hbs. now apply records_keys.
    + left. now exists (pre ++ ab)%list.
    + intros (idx & Hidx & Hnone). exfalso.
      rewrite List.Forall_forall in Hall.
      destruct (Hall idx) as [x Hx]; [apply in_seq; fold N; lia|].
      rewrite Hnone in Hx. discriminate.
Qed.

(** The scenario of C6: ten records, and the image of record 2 cannot be
    read. Record 0 is committed, record 1 is staged and lost, and no
    metadata key is put. *)
Example aborted_run :
  let outcome :=
    list2lmdb Aborted.files Demo.lmdb_ok "gender" (Some "/img") (Some "/msk")
      Aborted.image_list 5000 [] in
  outcome.2 = Raise (FileNotFoundError "/img/2.jpg")
  /\ put_keys outcome.1 = ["0"; "1"]
  /\ map fst (committed outcome.1) = ["0"]
  /\ db_of_log Demo.dumps_pyarrow outcome.1 !! "__len__" = None.
Proof. repeat split; vm_compute; reflexivity. Qed.

Lemma C6_metadata_after_data_witness :
  let outcome :=
    list2lmdb Aborted.files Demo.lmdb_ok "gender" (Some "/img") (Some "/msk")
      Aborted.image_list 5000 [] in
  let no_metadata :=
    (exists e, outcome.2 = Raise e)
    /\ forall key, In key META_KEYS ->
         ~ In key (put_keys outcome.1)
         /\ db_of_log Demo.dumps_pyarrow outcome.1 !! key = None in
  (forall l1 key obj l2,
      outcome.1 = (l1 ++ EPut key obj :: l2)%list -> In key META_KEYS ->
      map fst (committed l1) = map Py.format_idx (seq 0 10))
  /\ (data_phase Aborted.files Aborted.dataset (Some "/msk") 5000
        `prefix_of` outcome.1
      \/ no_metadata)
  /\ ((exists idx, (idx < 10)%nat
                   /\ record_at Aborted.files Aborted.dataset idx = None) ->
      no_metadata).
Proof.
  assert (H1 : ImageListRaw_init "gender" (Some "/img") (Some "/msk")
                 Aborted.image_list = OK Aborted.dataset)
    by (vm_compute; reflexivity).
  assert (H2 : forall o : list event * result unit, o = (o.1, o.2))
    by (intros [? ?]; reflexivity).
  exact (C6_metadata_after_data Aborted.files Demo.lmdb_ok Demo.dumps_pyarrow
           "gender" (Some "/img") (Some "/msk") Aborted.image_list 5000
           Aborted.dataset _ _ H1 (H2 _)).
Defined.

(** ** C7: the commit schedule *)

(** C7. A run with write frequency [w >= 1] that succeeds on N records has
    this log: the store is opened and a transaction begun; then for each
    index 0 .. N-1 in turn the image and the mask are read and the record
    is put under its key, followed, exactly when the index is a multiple of
    [w], by a commit and the begin of a new transaction; then one more
    commit; then the finalization. The committed puts are those of the N
    keys followed by the three metadata keys, pairwise distinct, and they
    are all the puts of the run: every record is committed once, none is
    lost and none is repeated. *)
Theorem C7_commit_schedule
    (files : string -> option string) (lmdb_ok : list event -> event -> bool)
    (attribute_name : string) (source mask_source : option string)
    (image_list : list row) (write_frequency : Z) (log : list event) :
  (1 <= write_frequency)%Z ->
  list2lmdb files lmdb_ok attribute_name source mask_source image_list
    write_frequency [] = (log, OK tt) ->
  exists self,
    ImageListRaw_init attribute_name source mask_source image_list = OK self
    /\ let N := ImageListRaw_len self in
       log = ([EOpen (map_size self mask_source); EBegin]
              ++ flat_map (record_events files self write_frequency) (seq 0 N)
              ++ [ECommit] ++ finalization self)%list
       /\ (forall idx, (idx < N)%nat ->
             exists p mp obj,
               record_events files self write_frequency idx
               = ([ERead p; ERead mp; EPut (Py.format_idx idx) obj]
                  ++ (if (Z.of_nat idx mod write_frequency =? 0)%Z
                      then [ECommit; EBegin] else []))%list)
       /\ map fst (committed log) = (map Py.format_idx (seq 0 N) ++ META_KEYS)%list
       /\ List.NoDup (map fst (committed log))
       /\ put_keys log = map fst (committed log).
Proof.
  intros _ Hrun.
  apply success_log in Hrun
    as (self & attribute & max_class & Hinit & B & -> & Hall & _).
  exists self. split; [exact Hinit|]. intros N.
  split; [|split; [|split; [|split]]].
  - unfold data_phase. now rewrite <- !app_assoc.
  - intros idx Hidx. rewrite List.Forall_forall in Hall.
    destruct (Hall idx) as [[[p mp] obj] Hrec]; [apply in_seq; fold N; lia|].
    exists p, mp, obj. exact (record_events_Some files _ _ _ _ _ _ Hrec).
  - now apply committed_success_keys.
  - rewrite committed_success_keys by exact Hall. apply keys_NoDup.
  - rewrite committed_success_keys by exact Hall.
    unfold data_phase, finalization. rewrite !put_keys_app.
    rewrite put_keys_records by exact Hall. simpl. now rewrite app_nil_r.
Qed.

(** The scenario of C7: write frequency 2 and five records. The
    transactions committed hold record 0; records 1 and 2; records 3 and 4;
    nothing (the commit after the loop); and the metadata. *)
Example write_frequency_2_five_records :
  let log :=
    (list2lmdb Five.files Demo.lmdb_ok "gender" (Some "/img") (Some "/msk")
       Five.image_list 2 []).1 in
  map (map fst) (batches log)
  = [["0"]; ["1"; "2"]; ["3"; "4"]; [];
     ["__keys__"; "__len__"; "__classnum__"]]
  /\ List.filter (fun e => match e with ERead _ => false | _ => true end) log
    = [EOpen 3010560; EBegin;
       EPut "0" (PyTuple3 "bytes of /img/0.jpg" 1 "bytes of /msk/0_mask.png");
       ECommit; EBegin;
       EPut "1" (PyTuple3 "bytes of /img/1.jpg" 1 "bytes of /msk/1_mask.png");
       EPut "2" (PyTuple3 "bytes of /img/2.jpg" 1 "bytes of /msk/2_mask.png");
       ECommit; EBegin;
       EPut "3" (PyTuple3 "bytes of /img/3.jpg" 1 "bytes of /msk/3_mask.png");
       EPut "4" (PyTuple3 "bytes of /img/4.jpg" 1 "bytes of /msk/4_mask.png");
       ECommit; EBegin;
       ECommit;
       EBegin; EPut "__keys__" (PyList ["0"; "1"; "2"; "3"; "4"]);
       EPut "__len__" (PyInt 5); EPut "__classnum__" (PyInt 2);
       ECommit; ESync; EClose].
Proof. split; vm_compute; reflexivity. Qed.

Lemma C7_commit_schedule_witness :
  let log :=
    (list2lmdb Five.files Demo.lmdb_ok "gender" (Some "/img") (Some "/msk")
       Five.image_list 2 []).1 in
  (1 <= 2)%Z
  /\ exists self,
       ImageListRaw_init "gender" (Some "/img") (Some "/msk") Five.image_list
       = OK self
       /\ let N := ImageListRaw_len self in
          log = ([EOpen (map_size self (Some "/msk")); EBegin]
                 ++ flat_map (record_events Five.files self 2) (seq 0 N)
                 ++ [ECommit] ++ finalization self)%list
          /\ (forall idx, (idx < N)%nat ->
                exists p mp obj,
                  record_events Five.files self 2 idx
                  = ([ERead p; ERead mp; EPut (Py.format_idx idx) obj]
                     ++ (if (Z.of_nat idx mod 2 =? 0)%Z
                         then [ECommit; EBegin] else []))%list)
          /\ map fst (committed log) = (map Py.format_idx (seq 0 N) ++ META_KEYS)%list
          /\ List.NoDup (map fst (committed log))
          /\ put_keys log = map fst (committed log).
Proof.
  assert (H1 : (1 <= 2)%Z) by lia.
  assert (H2 : list2lmdb Five.files Demo.lmdb_ok "gender" (Some "/img") (Some "/msk")
                 Five.image_list 2 []
               = ((list2lmdb Five.files Demo.lmdb_ok "gender" (Some "/img")
                     (Some "/msk") Five.image_list 2 []).1, OK tt))
    by (vm_compute; reflexivity).
  split; [exact H1|].
  exact (C7_commit_schedule Five.files Demo.lmdb_ok "gender" (Some "/img")
           (Some "/msk") Five.image_list 2 _ H1 H2).
Defined.

(** ** C9: the mask path *)

Lemma take_drop (n : nat) (s : string) : s = Py.take n s ++ Py.drop n s.
Proof.
  revert s. induction n as [|n IH]; intros [|c s]; simpl; try reflexivity.
  transitivity (String c (Py.take n s ++ Py.drop n s)); [|reflexivity].
  f_equal. apply IH.
Qed.

Lemma drop_length (n : nat) (s : string) :
  String.length (Py.drop n s) = (String.length s - n)%nat.
Proof.
  revert s. induction n as [|n IH]; intros [|c s]; simpl; try reflexivity.
  apply IH.
Qed.

(** [s[:-4]] removes the last four characters of a string that has at
    least four, and gives the empty string otherwise. *)
Lemma slice_until_neg_4 (s : string) :
  ((4 <= String.length s)%nat ->
     exists ext, s = Py.slice_until_neg 4 s ++ ext /\ String.length ext = 4%nat)
  /\ ((String.length s < 4)%nat -> Py.slice_until_neg 4 s = "").
Proof.
  unfold Py.slice_until_neg. split; intros H.
  - exists (Py.drop (String.length s - 4) s). split; [apply take_drop|].
    rewrite drop_length. lia.
  - replace (String.length s - 4)%nat with 0%nat by lia. now destruct s.
Qed.

Section NoImageRoot.

Variable files : string -> option string.
Variable lmdb_ok : list event -> event -> bool.

(** A dataset object without a list of mask paths has no item that can be
    resolved: a run over it raises and puts nothing. *)
Lemma no_mask_list_never_puts self mask_source write_frequency log r :
  (forall l, masks self <> MasksList l) ->
  (1 <= ImageListRaw_len self)%nat ->
  write_db files lmdb_ok self mask_source write_frequency [] = (log, r) ->
  (exists e, r = Raise e) /\ put_keys log = [].
Proof.
  intros Hm HN H.
  assert (Hnone : forall idx, record_at files self idx = None).
  { intros idx. unfold record_at. destruct (samples self !! idx); [|done].
    destruct (masks self) as [| |l]; [done | done |]. now destruct (Hm l). }
  apply write_db_inv in H as [(e & ext & -> & -> & Hext) | (Hall & _)].
  - split; [eauto|]. simpl.
    destruct (put_keys ext) as [|k ks] eqn:Hk; [done|].
    assert (Hin : In k (put_keys ext)) by (rewrite Hk; now left).
    apply put_keys_In in Hin as (obj & Hin).
    destruct (early_event_put _ _ _ _ _ _ Hext Hin) as (idx & p & mp & _ & Hrec).
    rewrite Hnone in Hrec. discriminate.
  - destruct (ImageListRaw_len self) as [|n]; [lia|].
    simpl in Hall. inversion Hall as [|? ? [x Hx] _]. rewrite Hnone in Hx.
    discriminate.
Qed.

(** With a store that works, a run over a dataset object whose attribute
    [masks] was never assigned reads the first image and stops in
    [__getitem__]. *)
Lemma unset_masks_run self mask_source write_frequency P img :
  (forall log e, lmdb_ok log e = true) ->
  masks self = MasksUnset ->
  samples self !! 0%nat = Some P ->
  files P = Some img ->
  write_db files lmdb_ok self mask_source write_frequency []
  = ([EOpen (map_size self mask_source); EBegin; ERead P], Raise AttributeError).
Proof.
  intros Hok Hm HP Hf.
  assert (HN : exists n, ImageListRaw_len self = S n).
  { unfold ImageListRaw_len. destruct (samples self); [discriminate | eauto]. }
  destruct HN as [n HN].
  unfold write_db, bind, lmdb. rewrite !Hok, HN. cbn [seq write_loop].
  unfold bind, ImageListRaw_getitem, bind, lift, list_get, read_file.
  rewrite HP. rewrite Hf. rewrite Hm. reflexivity.
Qed.

End NoImageRoot.

(** C9 (defect of the code). The loader derives the mask paths inside the
    branch [if source is not None]. When an image root and a mask root [M]
    are given, the dataset object has one mask path per surviving manifest
    entry, in order: for the entry with sample reference [P] it is the join
    of [M] and [P] without its last four characters, followed by
    [_mask.png]; without a mask root no mask path is derived. When the mask
    root [M] is given without an image root, the surviving entries are kept
    under their own references, but the attribute [masks] is never assigned
    and no mask path is derived for them: every run then raises before its
    first put, and when the store works and the first image can be read the
    exception is the [AttributeError] of [__getitem__]. *)
Theorem C9_mask_paths_need_image_root
    (files : string -> option string) (lmdb_ok : list event -> event -> bool)
    (attribute_name : string) (source mask_source : option string)
    (image_list : list row) (write_frequency : Z) (self : ImageListRaw)
    (attribute : nat) (max_class : max_label) :
  ATTRIBUTES !! attribute_name = Some attribute ->
  MAX_CLASS !! attribute_name = Some max_class ->
  ImageListRaw_init attribute_name source mask_source image_list = OK self ->
  let refs := map sample_ref (surviving attribute max_class image_list) in
  (forall S M, source = Some S -> mask_source = Some M ->
     exists l, masks self = MasksList l /\ length l = length refs
       /\ forall i P, refs !! i = Some P ->
            exists stem,
              l !! i = Some (stem ++ "_mask.png")
              /\ ((4 <= String.length (Py.path_join M P))%nat ->
                    exists ext, Py.path_join M P = stem ++ ext
                                /\ String.length ext = 4%nat)
              /\ ((String.length (Py.path_join M P) < 4)%nat -> stem = ""))
  /\ (mask_source = None -> forall l, masks self <> MasksList l)
  /\ (forall M, source = None -> mask_source = Some M ->
       refs <> [] /\ samples self = refs /\ masks self = MasksUnset
       /\ (forall log r,
             list2lmdb files lmdb_ok attribute_name None (Some M) image_list
               write_frequency [] = (log, r) ->
             put_keys log = [] /\ exists e, r = Raise e)
       /\ (forall P img,
             (forall log e, lmdb_ok log e = true) ->
             refs !! 0%nat = Some P -> files P = Some img ->
             list2lmdb files lmdb_ok attribute_name None (Some M) image_list
               write_frequency []
             = ([EOpen (map_size self (Some M)); EBegin; ERead P],
                Raise AttributeError))).
Proof.
  intros Hattr Hmax Hinit refs.
  destruct (ImageListRaw_init_OK _ _ _ _ _ Hinit) as (attribute' & max_class' & B).
  pose proof (bf_attribute _ _ _ _ _ _ _ B) as E1.
  pose proof (bf_max_class _ _ _ _ _ _ _ B) as E2.
  rewrite Hattr in E1. rewrite Hmax in E2.
  injection E1 as <-. injection E2 as <-.
  pose proof (bf_masks _ _ _ _ _ _ _ B) as Hm. fold refs in Hm.
  pose proof (bf_samples _ _ _ _ _ _ _ B) as Hs. fold refs in Hs.
  pose proof (built_from_nonempty _ _ _ _ _ _ _ B) as HN.
  split; [|split].
  - intros S M -> ->. exists (map (mask_path M) refs).
    split; [exact Hm|]. split; [apply length_map|].
    intros i P HP. exists (Py.slice_until_neg 4 (Py.path_join M P)).
    split; [|apply slice_until_neg_4].
    change (map (mask_path M) refs) with (mask_path M <$> refs).
    now rewrite list_lookup_fmap, HP.
  - intros -> l. rewrite Hm. destruct source; discriminate.
  - intros M -> ->. simpl in Hm, Hs.
    split; [|split; [exact Hs | split; [exact Hm | split]]].
    + intros E. unfold ImageListRaw_len in HN. rewrite Hs, E in HN. simpl in HN. lia.
    + intros log r Hrun.
      apply list2lmdb_inv in Hrun as [(e & He & _) | (self' & Hself' & Hrun)];
        [congruence|].
      rewrite Hinit in Hself'. injection Hself' as <-.
      apply and_comm.
      apply (no_mask_list_never_puts files lmdb_ok self (Some M) write_frequency);
        [|exact HN | exact Hrun].
      intros l. rewrite Hm. discriminate.
    + intros P img Hok HP Hf. unfold list2lmdb, bind, lift. rewrite Hinit.
      apply unset_masks_run with (img := img); [exact Hok | exact Hm | | exact Hf].
      now rewrite Hs.
Qed.

Lemma C9_mask_paths_need_image_root_witness :
  let image_list := [Row "/img/a.jpg" [0; 0; 30; 7]%Z] in
  let self := {| samples := ["/img/a.jpg"]; masks := MasksUnset;
                 targets := [0]%Z; classnum := 1 |} in
  ImageListRaw_init "gender" None (Some "/msk") image_list = OK self
  /\ map sample_ref (surviving 2 (Fin 1) image_list) = ["/img/a.jpg"]
  /\ samples self = ["/img/a.jpg"]
  /\ masks self = MasksUnset
  /\ (forall log r,
        list2lmdb Demo.files Demo.lmdb_ok "gender" None (Some "/msk") image_list
          5000 [] = (log, r) ->
        put_keys log = [] /\ exists e, r = Raise e)
  /\ list2lmdb Demo.files Demo.lmdb_ok "gender" None (Some "/msk") image_list
        5000 []
      = ([EOpen 602112; EBegin; ERead "/img/a.jpg"], Raise AttributeError).
Proof.
  intros image_list self.
  assert (Hinit : ImageListRaw_init "gender" None (Some "/msk") image_list = OK self)
    by (vm_compute; reflexivity).
  destruct (C9_mask_paths_need_image_root Demo.files Demo.lmdb_ok "gender" None
              (Some "/msk") image_list 5000 self 2%nat (Fin 1)
              eq_refl eq_refl Hinit) as (_ & _ & H).
  destruct (H "/msk" eq_refl eq_refl) as (_ & Hs & Hm & Hruns & Hrun).
  split; [exact Hinit|]. split; [vm_compute; reflexivity|].
  split; [exact Hs|]. split; [exact Hm|]. split; [exact Hruns|].
  exact (Hrun "/img/a.jpg" "A" (fun _ _ => eq_refl) eq_refl eq_refl).
Defined.

(** ** C10: a manifest whose rows are all filtered out *)

(** C10. When the two filters of the loader remove every row of a manifest,
    constructing the dataset object raises, and when the manifest had rows
    the exception is the [ValueError] of [np.max] on the empty label array.
    The run raises the same exception with an empty log: the store is not
    opened and no key is put. *)
Theorem C10_all_rows_filtered
    (files : string -> option string) (lmdb_ok : list event -> event -> bool)
    (attribute_name : string) (source mask_source : option string)
    (image_list : list row) (write_frequency : Z)
    (attribute : nat) (max_class : max_label) :
  ATTRIBUTES !! attribute_name = Some attribute ->
  MAX_CLASS !! attribute_name = Some max_class ->
  filter_rows attribute max_class image_list = OK [] ->
  exists e,
    ImageListRaw_init attribute_name source mask_source image_list = Raise e
    /\ (image_list <> [] -> e = ValueError)
    /\ list2lmdb files lmdb_ok attribute_name source mask_source image_list
         write_frequency [] = ([], Raise e).
Proof.
  intros Hattr Hmax Hfilter.
  assert (Hinit : exists e,
    ImageListRaw_init attribute_name source mask_source image_list = Raise e
    /\ (image_list <> [] -> e = ValueError)).
  { unfold ImageListRaw_init, dict_get. rewrite Hattr, Hmax. simpl.
    destruct image_list as [|r rows].
    - exists EmptyDataError. split; [reflexivity | congruence].
    - exists ValueError. split; [|reflexivity].
      cbn [read_csv rbind]. rewrite Hfilter. cbn [rbind].
      destruct source; reflexivity. }
  destruct Hinit as (e & Hinit & He). exists e.
  split; [exact Hinit|]. split; [exact He|].
  unfold list2lmdb, bind, lift. now rewrite Hinit.
Qed.

Lemma C10_all_rows_filtered_witness :
  let image_list := [Row "a.jpg" [0; 2; 30; 7]%Z; Row "b.jpg" [0; -1; 31; 8]%Z] in
  exists e,
    ImageListRaw_init "gender" (Some "/img") (Some "/msk") image_list = Raise e
    /\ (image_list <> [] -> e = ValueError)
    /\ list2lmdb Demo.files Demo.lmdb_ok "gender" (Some "/img") (Some "/msk")
         image_list 5000 [] = ([], Raise e).
Proof.
  exact (C10_all_rows_filtered Demo.files Demo.lmdb_ok "gender" (Some "/img")
           (Some "/msk")
           [Row "a.jpg" [0; 2; 30; 7]%Z; Row "b.jpg" [0; -1; 31; 8]%Z] 5000
           2%nat (Fin 1) eq_refl eq_refl eq_refl).
Defined.

(** ** When a run succeeds *)

Section Liveness.

Variable files : string -> option string.
Variable lmdb_ok : list event -> event -> bool.

(** The LMDB binding never fails. *)
Hypothesis lmdb_always : forall log e, lmdb_ok log e = true.





End Liveness.

(** * Further properties of the pipeline *)

(** ** What the store holds under each sequential key *)

(** X1. After a successful run, the value under the key of index [i] is
    the encoding of the triple made of the bytes of the image of the
    [i]-th surviving manifest row, the label of that row, and the bytes of
    its mask; both roots were given and both files were readable. *)
Theorem X1_store_content
    (files : string -> option string) (lmdb_ok : list event -> event -> bool)
    (dumps_pyarrow : pyobj -> string)
    (attribute_name : string) (source mask_source : option string)
    (image_list : list row) (write_frequency : Z)
    (attribute : nat) (max_class : max_label) (log : list event)
    (i : nat) (r : row) :
  ATTRIBUTES !! attribute_name = Some attribute ->
  MAX_CLASS !! attribute_name = Some max_class ->
  list2lmdb files lmdb_ok attribute_name source mask_source image_list
    write_frequency [] = (log, OK tt) ->
  surviving attribute max_class image_list !! i = Some r ->
  exists S M img label mask,
    source = Some S /\ mask_source = Some M
    /\ files (Py.path_join S (sample_ref r)) = Some img
    /\ label_of attribute r = Some label
    /\ files (mask_path M (sample_ref r)) = Some mask
    /\ db_of_log dumps_pyarrow log !! Py.format_idx i
       = Some (dumps_pyarrow (PyTuple3 img label mask)).
Proof.
  intros Hattr Hmax Hrun Hrow.
  apply success_log in Hrun
    as (self & attribute' & max_class' & _ & B & -> & Hall & _).
  pose proof (bf_attribute _ _ _ _ _ _ _ B) as E1.
  pose proof (bf_max_class _ _ _ _ _ _ _ B) as E2.
  rewrite Hattr in E1. rewrite Hmax in E2.
  injection E1 as <-. injection E2 as <-.
  assert (Hi : (i < ImageListRaw_len self)%nat).
  { unfold ImageListRaw_len. destruct (built_from_length _ _ _ _ _ _ _ B) as [-> _].
    now apply lookup_lt_Some in Hrow. }
  pose proof Hall as Hall'. rewrite List.Forall_forall in Hall'.
  destruct (Hall' i) as [[[p mp] obj] Hrec]; [apply in_seq; lia|].
  destruct (record_at_Some _ _ _ _ _ _ Hrec)
    as (img & label & mask & l & Hp & Hl & Hmp & Ht & Himg & Hmask & ->).
  pose proof (bf_masks _ _ _ _ _ _ _ B) as Hm. rewrite Hl in Hm.
  pose proof (bf_samples _ _ _ _ _ _ _ B) as Hs.
  destruct source as [S|]; [|discriminate].
  destruct mask_source as [M|]; [|discriminate].
  injection Hm as ->.
  exists S, M, img, label, mask. split; [done|]. split; [done|].
  rewrite Hs in Hp.
  change (map ?f ?l) with (f <$> l) in Hp, Hmp.
  rewrite !list_lookup_fmap, Hrow in Hp. rewrite !list_lookup_fmap, Hrow in Hmp.
  injection Hp as <-. injection Hmp as <-.
  split; [exact Himg|]. split.
  { destruct (Forall2_lookup_l _ _ _ _ _ (bf_targets _ _ _ _ _ _ _ B) Hrow)
      as (label' & Ht' & Hlabel).
    rewrite Ht in Ht'. now injection Ht' as <-. }
  split; [exact Hmask|].
  apply db_success; [exact Hall|]. rewrite committed_success by exact Hall.
  apply in_app_iff. left. apply list_elem_of_In, list_elem_of_omap.
  exists i. split; [apply list_elem_of_In, in_seq; lia|].
  unfold record_of. now rewrite Hrec.
Qed.

Lemma X1_store_content_witness :
  exists S M img label mask,
    Some "/img" = Some S /\ Some "/msk" = Some M
    /\ Demo.files (Py.path_join S "b.jpg") = Some img
    /\ label_of 2 (Row "b.jpg" [1; 1; 31; 8]%Z) = Some label
    /\ Demo.files (mask_path M "b.jpg") = Some mask
    /\ db_of_log Demo.dumps_pyarrow
         (list2lmdb Demo.files Demo.lmdb_ok "gender" (Some "/img") (Some "/msk")
            Demo.image_list 5000 []).1 !! Py.format_idx 1
       = Some (Demo.dumps_pyarrow (PyTuple3 img label mask)).
Proof.
  exact (X1_store_content Demo.files Demo.lmdb_ok Demo.dumps_pyarrow
           "gender" (Some "/img") (Some "/msk") Demo.image_list 5000
           2%nat (Fin 1) _ 1%nat (Row "b.jpg" [1; 1; 31; 8]%Z)
           eq_refl eq_refl eq_refl eq_refl).
Defined.

(** ** When exactly a run succeeds *)




(** ** Errors of the loader *)

(** X3. An attribute name other than [race], [gender], [age] and
    [recognition] makes the loader raise [KeyError] with that name, whatever
    the manifest and the roots, and the run raises it before anything is
    read, opened or written. *)
Theorem X3_unknown_attribute
    (files : string -> option string) (lmdb_ok : list event -> event -> bool)
    (attribute_name : string) (source mask_source : option string)
    (image_list : list row) (write_frequency : Z) :
  ~ In attribute_name ["race"; "gender"; "age"; "recognition"] ->
  ImageListRaw_init attribute_name source mask_source image_list
  = Raise (KeyError attribute_name)
  /\ list2lmdb files lmdb_ok attribute_name source mask_source image_list
       write_frequency [] = ([], Raise (KeyError attribute_name)).
Proof.
  intros Hn.
  assert (Hnone : ATTRIBUTES !! attribute_name = None).
  { apply not_elem_of_list_to_map_1. intros Hin.
    apply Hn. simpl in Hin. now apply list_elem_of_In in Hin. }
  assert (Hraise : ImageListRaw_init attribute_name source mask_source image_list
                   = Raise (KeyError attribute_name)).
  { unfold ImageListRaw_init, dict_get. now rewrite Hnone. }
  split; [exact Hraise|]. unfold list2lmdb, bind, lift. now rewrite Hraise.
Qed.

Lemma X3_unknown_attribute_witness :
  ~ In "emotion" ["race"; "gender"; "age"; "recognition"]
  /\ ImageListRaw_init "emotion" (Some "/img") (Some "/msk") Demo.image_list
     = Raise (KeyError "emotion")
  /\ list2lmdb Demo.files Demo.lmdb_ok "emotion" (Some "/img") (Some "/msk")
       Demo.image_list 5000 [] = ([], Raise (KeyError "emotion")).
Proof.
  assert (Hn : ~ In "emotion" ["race"; "gender"; "age"; "recognition"])
    by (simpl; intuition discriminate).
  split; [exact Hn|].
  exact (X3_unknown_attribute Demo.files Demo.lmdb_ok "emotion"
           (Some "/img") (Some "/msk") Demo.image_list 5000 Hn).
Defined.

(** ** The dataset object *)

(** X4. A dataset object that the loader built is never empty, and its
    length, the number of its labels and, when it has masks, the number of
    its mask paths all equal the number of manifest rows whose label is in
    range. *)
Theorem X4_dataset_lengths
    (attribute_name : string) (source mask_source : option string)
    (image_list : list row) (attribute : nat) (max_class : max_label)
    (self : ImageListRaw) :
  ATTRIBUTES !! attribute_name = Some attribute ->
  MAX_CLASS !! attribute_name = Some max_class ->
  ImageListRaw_init attribute_name source mask_source image_list = OK self ->
  let n := length (surviving attribute max_class image_list) in
  (1 <= n)%nat
  /\ ImageListRaw_len self = n
  /\ length (targets self) = n
  /\ (forall l, masks self = MasksList l -> length l = n).
Proof.
  intros Hattr Hmax Hinit n.
  destruct (ImageListRaw_init_OK _ _ _ _ _ Hinit) as (attribute' & max_class' & B).
  pose proof (bf_attribute _ _ _ _ _ _ _ B) as E1.
  pose proof (bf_max_class _ _ _ _ _ _ _ B) as E2.
  rewrite Hattr in E1. rewrite Hmax in E2.
  injection E1 as <-. injection E2 as <-.
  destruct (built_from_length _ _ _ _ _ _ _ B) as [Hs Ht].
  pose proof (built_from_nonempty _ _ _ _ _ _ _ B) as H1.
  unfold ImageListRaw_len in *. fold n in Hs, Ht.
  split; [lia|]. split; [exact Hs|]. split; [exact Ht|].
  intros l Hl. rewrite (bf_masks _ _ _ _ _ _ _ B) in Hl.
  destruct source; [|discriminate]. destruct mask_source; [|discriminate].
  injection Hl as <-. now rewrite !length_map.
Qed.

Lemma X4_dataset_lengths_witness :
  let self := {| samples := ["/img/a.jpg"; "/img/b.jpg"];
                 masks := MasksList ["/msk/a_mask.png"; "/msk/b_mask.png"];
                 targets := [0; 1]%Z; classnum := 2 |} in
  (1 <= 2)%nat
  /\ ImageListRaw_len self = 2%nat
  /\ length (targets self) = 2%nat
  /\ (forall l, masks self = MasksList l -> length l = 2%nat).
Proof.
  exact (X4_dataset_lengths "gender" (Some "/img") (Some "/msk") Demo.image_list
           2%nat (Fin 1)
           {| samples := ["/img/a.jpg"; "/img/b.jpg"];
              masks := MasksList ["/msk/a_mask.png"; "/msk/b_mask.png"];
              targets := [0; 1]%Z; classnum := 2 |}
           eq_refl eq_refl eq_refl).
Defined.

(** ** An invariant of every run *)

Lemma handle_after_snoc (log : list event) (e : event) :
  handle_after (log ++ [e])
  = match handle_after log with
    | Some h => handle_step h e
    | None => None
    end.
Proof. unfold handle_after. now rewrite foldl_app. Qed.

Lemma replay_snoc (log : list event) (e : event) st :
  foldl txn_step st (log ++ [e]) = txn_step (foldl txn_step st log) e.
Proof. now rewrite foldl_app. Qed.

Section InvariantFacts.

Variable files : string -> option string.
Variable lmdb_ok : list event -> event -> bool.

Lemma consistent_read self h j log p :
  consistent files self h j log -> consistent files self h j (log ++ [ERead p]).
Proof.
  intros (Hh & Hall & Ht & Hc). unfold consistent.
  rewrite handle_after_snoc, Hh, replay_snoc. auto.
Qed.

Lemma consistent_reads self h j log ext :
  Forall (dataset_read self) ext ->
  consistent files self h j log -> consistent files self h j (log ++ ext).
Proof.
  intros Hext. revert log.
  induction Hext as [|e ext (p & -> & _) _ IH]; intros log H.
  - now rewrite app_nil_r.
  - change (ERead p :: ext) with ([ERead p] ++ ext)%list. rewrite app_assoc.
    apply IH. now apply consistent_read.
Qed.

Lemma seq_snoc (j : nat) : seq 0 (S j) = (seq 0 j ++ [j])%list.
Proof. now rewrite seq_S. Qed.

Lemma consistent_put self j log p mp obj :
  consistent files self InTxn j log ->
  record_at files self j = Some (p, mp, obj) ->
  consistent files self InTxn (S j) (log ++ [EPut (Py.format_idx j) obj]).
Proof.
  intros (Hh & Hall & Ht & Hc) Hrec. unfold consistent.
  rewrite handle_after_snoc, Hh, replay_snoc, seq_snoc.
  split; [reflexivity|]. split.
  { apply Forall_app. split; [exact Hall|]. constructor; [|constructor].
    rewrite Hrec. eauto. }
  split; [|congruence].
  rewrite omap_app. simpl. unfold record_of at 2. rewrite Hrec.
  destruct (foldl txn_step ([], []) log) as [bs cur].
  unfold txn_all in *. simpl in *. now rewrite app_assoc, Ht.
Qed.

Lemma consistent_commit self j log :
  consistent files self InTxn j log ->
  consistent files self Idle j (log ++ [ECommit]).
Proof.
  intros (Hh & Hall & Ht & Hc). unfold consistent.
  rewrite handle_after_snoc, Hh, replay_snoc.
  split; [reflexivity|]. split; [exact Hall|].
  destruct (foldl txn_step ([], []) log) as [bs cur].
  unfold txn_all in *. simpl in *. split; [|reflexivity].
  now rewrite List.concat_app, app_nil_r; simpl; rewrite app_nil_r.
Qed.

Lemma consistent_begin self j log :
  consistent files self Idle j log ->
  consistent files self InTxn j (log ++ [EBegin]).
Proof.
  intros (Hh & Hall & Ht & Hc). unfold consistent.
  rewrite handle_after_snoc, Hh, replay_snoc.
  split; [reflexivity|]. split; [exact Hall|].
  specialize (Hc ltac:(discriminate)).
  destruct (foldl txn_step ([], []) log) as [bs cur].
  unfold txn_all in *. simpl in *. subst cur. split; [exact Ht | congruence].
Qed.

(** The four ways the conditional commit of a turn can go. *)
Lemma maybe_commit_cases write_frequency idx log log' r :
  maybe_commit lmdb_ok write_frequency idx log = (log', r) ->
  (log' = log /\ exists e, r = Raise e)
  \/ (log' = (log ++ [ECommit])%list /\ r = Raise LmdbError)
  \/ (log' = (log ++ [ECommit; EBegin])%list /\ r = OK tt)
  \/ (log' = log /\ r = OK tt).
Proof.
  unfold maybe_commit, bind, lmdb, raise, ret.
  destruct (write_frequency =? 0)%Z; [intros [= <- <-]; left; eauto|].
  destruct (Z.of_nat idx mod write_frequency =? 0)%Z;
    [|intros [= <- <-]; auto].
  destruct (lmdb_ok log ECommit); [|intros [= <- <-]; left; eauto].
  destruct (lmdb_ok (log ++ [ECommit]) EBegin); intros [= <- <-].
  - right; right; left. now rewrite <- app_assoc.
  - right; left. auto.
Qed.

Ltac stopped e h j :=
  right; exists e, h, j;
  split; [reflexivity|]; split; [auto|]; split; [lia|].

(** The data loop keeps the invariant, whether it runs to its end or
    stops. *)
Lemma write_loop_consistent self write_frequency n a log log' r :
  consistent files self InTxn a log ->
  write_loop files lmdb_ok self write_frequency (seq a n) log = (log', r) ->
  (r = OK tt /\ consistent files self InTxn (a + n) log')
  \/ (exists e h j,
        r = Raise e /\ (h = InTxn \/ h = Idle) /\ (j <= a + n)%nat
        /\ consistent files self h j log').
Proof.
  revert a log. induction n as [|n IH]; intros a log Hc H; simpl in H.
  { injection H as <- <-. left. now rewrite Nat.add_0_r. }
  apply bind_inv in H as [(e & H & ->) | (data & log1 & H & K)];
    apply ImageListRaw_getitem_inv in H as (ext1 & -> & R1 & D).
  { stopped e InTxn a. now apply consistent_reads. }
  destruct (D data eq_refl) as (p & mp & img & label & mask & Hrec & -> & ->).
  clear D. apply (consistent_reads _ _ _ _ _ R1) in Hc.
  apply bind_inv in K as [(e & H & ->) | ([] & log2 & H & K)];
    apply lmdb_inv in H as [(-> & H & _) | (-> & H)]; try discriminate.
  { stopped e InTxn a. exact Hc. }
  apply (consistent_put _ _ _ _ _ _) with (1 := Hc) in Hrec as Hc'.
  clear Hc.
  apply bind_inv in K as [(e & H' & ->) | ([] & log3 & H' & K)];
    apply maybe_commit_cases in H'
      as [(-> & e' & E) | [(-> & E) | [(-> & E) | (-> & E)]]];
    try discriminate.
  - stopped e InTxn (S a). exact Hc'.
  - stopped e Idle (S a). now apply consistent_commit.
  - apply consistent_commit, consistent_begin in Hc'.
    rewrite <- app_assoc in Hc'. simpl in Hc'.
    apply IH in K; [|exact Hc'].
    destruct K as [[-> K] | (e & h & j & -> & Hh & Hj & K)].
    + left. split; [done|]. now replace (a + S n)%nat with (S a + n)%nat by lia.
    + stopped e h j. exact K.
  - apply IH in K; [|exact Hc'].
    destruct K as [[-> K] | (e & h & j & -> & Hh & Hj & K)].
    + left. split; [done|]. now replace (a + S n)%nat with (S a + n)%nat by lia.
    + stopped e h j. exact K.
Qed.

(** What follows the data phase ends in one of the listed ways. *)
Lemma finalize_cases self log log' r :
  (let* keys := key_list self in
   run write_meta lmdb_ok self keys then
   run lmdb lmdb_ok ESync then
   lmdb lmdb_ok EClose) log = (log', r) ->
  exists tail, log' = (log ++ tail)%list /\ In (tail, r) (finalize_outcomes self).
Proof.
  intros H. unfold key_list, finalize_outcomes in *.
  destruct (ImageListRaw_len self) as [|n].
  { injection H as <- <-. exists []. rewrite app_nil_r. split; [done | now left]. }
  rewrite Nat.add_1_r in H.
  unfold write_meta, with_txn, bind, ret, lmdb in H.
  rewrite length_map, length_seq in H.
  repeat match type of H with
         | context [lmdb_ok ?l ?e] => destruct (lmdb_ok l e)
         end;
    injection H as <- <-; rewrite <- ?app_assoc;
    (eexists; split; [first [reflexivity | symmetry; apply app_nil_r]|]);
    cbn [In]; auto 12.
Qed.

(** Every run over a dataset object either stops during the data phase,
    with the invariant holding of its log, or completes the data phase and
    ends the rest in one of the listed ways. *)
Lemma write_db_consistent self mask_source write_frequency log r :
  write_db files lmdb_ok self mask_source write_frequency [] = (log, r) ->
  (exists e h j,
      r = Raise e /\ h <> Closed /\ (j <= ImageListRaw_len self)%nat
      /\ consistent files self h j log)
  \/ (exists L tail,
        log = (L ++ tail)%list
        /\ consistent files self Idle (ImageListRaw_len self) L
        /\ In (tail, r) (finalize_outcomes self)).
Proof.
  unfold write_db. intros H.
  set (o := EOpen (map_size self mask_source)) in *.
  assert (C0 : consistent files self Unopened 0 []).
  { unfold consistent. simpl. repeat split; auto. }
  assert (C1 : consistent files self Idle 0 [o]).
  { unfold consistent. simpl. repeat split; auto. }
  assert (C2 : consistent files self InTxn 0 [o; EBegin]).
  { unfold consistent. simpl. repeat split; auto; congruence. }
  apply bind_inv in H as [(e & H & ->) | ([] & log1 & H & K)];
    apply lmdb_inv in H as [(-> & H & _) | (-> & H)]; try discriminate.
  { left. exists e, Unopened, 0%nat.
    split; [done|]. split; [done|]. split; [lia | exact C0]. }
  apply bind_inv in K as [(e & H' & ->) | ([] & log2 & H' & K)];
    apply lmdb_inv in H' as [(-> & H' & _) | (-> & H')]; try discriminate.
  { left. exists e, Idle, 0%nat.
    split; [done|]. split; [done|]. split; [lia | exact C1]. }
  apply bind_inv in K as [(e & L & ->) | ([] & log3 & L & K)];
    apply (write_loop_consistent self write_frequency _ 0%nat _ _ _ C2) in L
      as [[E L] | (e' & h & j & E & Hh & Hj & L)]; try discriminate.
  { left. exists e, h, j. split; [done|]. split; [destruct Hh; congruence|].
    split; [exact Hj | exact L]. }
  simpl in L.
  apply bind_inv in K as [(e & H'' & ->) | ([] & log4 & H'' & K)];
    apply lmdb_inv in H'' as [(-> & H'' & _) | (-> & H'')]; try discriminate.
  { left. exists e, InTxn, (ImageListRaw_len self).
    split; [done|]. split; [done|]. split; [lia | exact L]. }
  right. apply consistent_commit in L.
  apply finalize_cases in K as (tail & -> & Hin).
  exists (log3 ++ [ECommit])%list, tail. auto.
Qed.

End InvariantFacts.

(** ** The handle discipline *)

Lemma handle_after_app (l1 l2 : list event) :
  handle_after (l1 ++ l2)
  = foldl (fun oh e => match oh with Some h => handle_step h e | None => None end)
          (handle_after l1) l2.
Proof. unfold handle_after. now rewrite foldl_app. Qed.

(** X5. Every run, whatever the files and however the store fails,
    respects the discipline of the store handle: it opens the store at most
    once and before anything else, begins a transaction only on an idle
    handle, puts, commits and aborts only inside an open transaction, and
    syncs and closes only an idle handle. The handle ends up closed exactly
    when the run succeeds: a run that raises leaves the store unclosed. *)
Theorem X5_handle_discipline
    (files : string -> option string) (lmdb_ok : list event -> event -> bool)
    (attribute_name : string) (source mask_source : option string)
    (image_list : list row) (write_frequency : Z)
    (log : list event) (r : result unit) :
  list2lmdb files lmdb_ok attribute_name source mask_source image_list
    write_frequency [] = (log, r) ->
  exists h, handle_after log = Some h /\ (h = Closed <-> r = OK tt).
Proof.
  intros H. apply list2lmdb_inv in H as [(e & _ & -> & ->) | (self & _ & H)].
  { exists Unopened. split; [reflexivity|]. split; discriminate. }
  apply write_db_consistent in H
    as [(e & h & j & -> & Hh & _ & Hc & _) | (L & tail & -> & (Hc & _) & Hin)].
  { exists h. split; [exact Hc|]. split; [contradiction | discriminate]. }
  rewrite handle_after_app, Hc. unfold finalize_outcomes in Hin.
  cbn [In] in Hin.
  repeat (destruct Hin as [[= <- <-] | Hin];
          [eexists; split; [reflexivity|]; split; discriminate || reflexivity|]).
  destruct Hin.
Qed.

Lemma X5_handle_discipline_witness :
  let outcome :=
    list2lmdb Aborted.files Demo.lmdb_ok "gender" (Some "/img") (Some "/msk")
      Aborted.image_list 5000 [] in
  exists h, handle_after outcome.1 = Some h /\ (h = Closed <-> outcome.2 = OK tt).
Proof.
  assert (H : forall o : list event * result unit, o = (o.1, o.2))
    by (intros [? ?]; reflexivity).
  exact (X5_handle_discipline Aborted.files Demo.lmdb_ok "gender" (Some "/img")
           (Some "/msk") Aborted.image_list 5000 _ _ (H _)).
Defined.

(** ** The store after any run *)

Section Prefix.

Variable files : string -> option string.

Lemma records_length self j :
  Forall (fun idx => is_Some (record_at files self idx)) (seq 0 j) ->
  length (omap (record_of files self) (seq 0 j)) = j.
Proof.
  intros H. rewrite <- (length_map fst), records_keys by exact H.
  now rewrite length_map, length_seq.
Qed.

(** An initial part of the records of the indices below [j] is the list of
    the records of the indices below its length. *)
Lemma records_prefix self j (l1 l2 : list (string * pyobj)) :
  Forall (fun idx => is_Some (record_at files self idx)) (seq 0 j) ->
  (l1 ++ l2)%list = omap (record_of files self) (seq 0 j) ->
  (length l1 <= j)%nat
  /\ Forall (fun idx => is_Some (record_at files self idx)) (seq 0 (length l1))
  /\ l1 = omap (record_of files self) (seq 0 (length l1)).
Proof.
  intros Hall E.
  assert (Hle : (length l1 <= j)%nat).
  { rewrite <- (records_length self j Hall), <- E, length_app. lia. }
  assert (Hseq : seq 0 j = (seq 0 (length l1) ++ seq (length l1) (j - length l1))%list).
  { rewrite <- seq_app. f_equal. lia. }
  assert (Hall1 : Forall (fun idx => is_Some (record_at files self idx))
                         (seq 0 (length l1))).
  { rewrite Hseq in Hall. now apply Forall_app in Hall as [H _]. }
  split; [exact Hle|]. split; [exact Hall1|].
  rewrite Hseq, omap_app in E.
  apply app_inj_1 in E as [E _]; [exact E|].
  now rewrite records_length.
Qed.

End Prefix.

(** X6. After any run, failed or not, the committed data records are those
    of the indices 0 .. k-1 for some k up to the number N of dataset items,
    each the record of its index: in a store that was empty, the key of
    every index below k holds the encoding of that item's record and the
    key of no other index is present. The metadata entries are committed
    only together with all N records, and they are when the run
    succeeds. *)
Theorem X6_store_without_gaps
    (files : string -> option string) (lmdb_ok : list event -> event -> bool)
    (dumps_pyarrow : pyobj -> string)
    (attribute_name : string) (source mask_source : option string)
    (image_list : list row) (write_frequency : Z)
    (self : ImageListRaw) (log : list event) (r : result unit) :
  ImageListRaw_init attribute_name source mask_source image_list = OK self ->
  list2lmdb files lmdb_ok attribute_name source mask_source image_list
    write_frequency [] = (log, r) ->
  let N := ImageListRaw_len self in
  let db := db_of_log dumps_pyarrow log in
  let meta := [("__keys__", PyList (map Py.format_idx (seq 0 N)));
               ("__len__", PyInt (Z.of_nat N));
               ("__classnum__", PyInt (classnum self))] in
  exists k,
    (k <= N)%nat
    /\ (committed log = omap (record_of files self) (seq 0 k)
        \/ (k = N /\ committed log
                     = (omap (record_of files self) (seq 0 N) ++ meta)%list))
    /\ (r = OK tt ->
        committed log = (omap (record_of files self) (seq 0 N) ++ meta)%list)
    /\ (forall i, (i < k)%nat ->
          exists p mp obj,
            record_at files self i = Some (p, mp, obj)
            /\ db !! Py.format_idx i = Some (dumps_pyarrow obj))
    /\ (forall i, (k <= i)%nat -> db !! Py.format_idx i = None).
Proof.
  intros Hinit Hrun N db meta.
  apply list2lmdb_inv in Hrun as [(e & He & _) | (self' & Hinit' & Hrun)];
    [congruence|].
  rewrite Hinit in Hinit'. injection Hinit' as <-.
  assert (Hdb : forall k tl,
    (k <= N)%nat ->
    Forall (fun idx => is_Some (record_at files self idx)) (seq 0 k) ->
    committed log = (omap (record_of files self) (seq 0 k) ++ tl)%list ->
    map fst tl = [] \/ map fst tl = META_KEYS ->
    (forall i, (i < k)%nat ->
       exists p mp obj,
         record_at files self i = Some (p, mp, obj)
         /\ db !! Py.format_idx i = Some (dumps_pyarrow obj))
    /\ (forall i, (k <= i)%nat -> db !! Py.format_idx i = None)).
  { intros k tl Hk Hall Hcom Htl.
    assert (Hkeys : map fst (committed log) = (data_keys k ++ map fst tl)%list).
    { now rewrite Hcom, map_app, records_keys. }
    assert (Hnd : List.NoDup (map fst (committed log))).
    { rewrite Hkeys. destruct Htl as [-> | ->].
      - rewrite app_nil_r. apply data_keys_NoDup.
      - apply keys_NoDup. }
    split.
    - intros i Hi. rewrite List.Forall_forall in Hall.
      destruct (Hall i) as [[[p mp] obj] Hrec]; [apply in_seq; lia|].
      exists p, mp, obj. split; [exact Hrec|].
      unfold db, db_of_log. apply db_lookup_put; [exact Hnd|].
      rewrite Hcom. apply in_app_iff. left.
      apply list_elem_of_In, list_elem_of_omap. exists i.
      split; [apply list_elem_of_In, in_seq; lia|].
      unfold record_of. now rewrite Hrec.
    - intros i Hi. unfold db, db_of_log.
      rewrite db_lookup_other; [apply lookup_empty|].
      rewrite Hkeys. intros Hin. apply in_app_iff in Hin as [Hin | Hin].
      + apply data_keys_In in Hin as (i' & Hi' & E).
        apply format_idx_inj in E. lia.
      + destruct Htl as [E | E]; rewrite E in Hin; [destruct Hin|].
        exact (format_idx_not_meta i Hin). }
  apply write_db_consistent in Hrun
    as [(e & h & j & -> & _ & Hj & _ & Hall & Ht & _)
       | (L & tail & -> & (_ & Hall & Ht & Hcur) & Hin)].
  - (* stopped during the data phase *)
    destruct (foldl txn_step ([], []) log) as [bs cur] eqn:E.
    unfold txn_all in Ht. simpl in Ht.
    destruct (records_prefix files self j _ _ Hall Ht) as (Hle & Hall' & Hbs).
    assert (Hcom : committed log
                   = omap (record_of files self) (seq 0 (length (List.concat bs)))).
    { unfold committed, batches. now rewrite E. }
    exists (length (List.concat bs)).
    split; [fold N in Hj; lia|]. split; [now left|]. split; [discriminate|].
    apply (Hdb _ []); [fold N in Hj; lia | exact Hall' | | now left].
    now rewrite app_nil_r.
  - (* the data phase took place *)
    specialize (Hcur ltac:(discriminate)).
    destruct (foldl txn_step ([], []) L) as [bs cur] eqn:E.
    unfold txn_all in Ht. simpl in Ht, Hcur. subst cur. rewrite app_nil_r in Ht.
    assert (HcomA : (foldl txn_step (bs, []) tail).1 = bs ->
                    committed (L ++ tail) = omap (record_of files self) (seq 0 N)).
    { intros H. unfold committed, batches. now rewrite foldl_app, E, H. }
    assert (HcomB : forall tl,
      (foldl txn_step (bs, []) tail).1 = (bs ++ [tl])%list ->
      committed (L ++ tail) = (omap (record_of files self) (seq 0 N) ++ tl)%list).
    { intros tl H. unfold committed, batches. rewrite foldl_app, E, H.
      rewrite List.concat_app, Ht. simpl. now rewrite app_nil_r. }
    exists N. split; [lia|]. fold N in Ht, Hall.
    match goal with |- ?G => set (claim := G) end.
    assert (FA : committed (L ++ tail) = omap (record_of files self) (seq 0 N) ->
                 r <> OK tt -> claim).
    { intros Hc Hr. split; [now left|]. split; [intros ->; now destruct Hr|].
      apply (Hdb N []); [lia | exact Hall | | now left].
      rewrite Hc. symmetry. apply app_nil_r. }
    assert (FB : committed (L ++ tail)
                 = (omap (record_of files self) (seq 0 N) ++ meta)%list -> claim).
    { intros Hc. split; [right; split; [reflexivity | exact Hc]|].
      split; [intros _; exact Hc|].
      apply (Hdb N meta); [lia | exact Hall | exact Hc | now right]. }
    clearbody claim. clear Hdb.
    unfold finalize_outcomes in Hin. cbn [In] in Hin. fold N in Hin.
    repeat (destruct Hin as [[= <- <-] | Hin];
      [first [apply FA; [apply HcomA; reflexivity | discriminate]
             |apply FB; apply HcomB; reflexivity] |]).
    destruct Hin.
Qed.

Lemma X6_store_without_gaps_witness :
  let outcome :=
    list2lmdb Aborted.files Demo.lmdb_ok "gender" (Some "/img") (Some "/msk")
      Aborted.image_list 5000 [] in
  let self := Aborted.dataset in
  let db := db_of_log Demo.dumps_pyarrow outcome.1 in
  let meta := [("__keys__", PyList (map Py.format_idx (seq 0 10)));
               ("__len__", PyInt 10);
               ("__classnum__", PyInt (classnum self))] in
  exists k,
    (k <= 10)%nat
    /\ (committed outcome.1 = omap (record_of Aborted.files self) (seq 0 k)
        \/ (k = 10%nat
            /\ committed outcome.1
               = (omap (record_of Aborted.files self) (seq 0 10) ++ meta)%list))
    /\ (outcome.2 = OK tt ->
        committed outcome.1
        = (omap (record_of Aborted.files self) (seq 0 10) ++ meta)%list)
    /\ (forall i, (i < k)%nat ->
          exists p mp obj,
            record_at Aborted.files self i = Some (p, mp, obj)
            /\ db !! Py.format_idx i = Some (Demo.dumps_pyarrow obj))
    /\ (forall i, (k <= i)%nat -> db !! Py.format_idx i = None).
Proof.
  assert (H1 : ImageListRaw_init "gender" (Some "/img") (Some "/msk")
                 Aborted.image_list = OK Aborted.dataset)
    by (vm_compute; reflexivity).
  assert (H2 : forall o : list event * result unit, o = (o.1, o.2))
    by (intros [? ?]; reflexivity).
  exact (X6_store_without_gaps Aborted.files Demo.lmdb_ok Demo.dumps_pyarrow
           "gender" (Some "/img") (Some "/msk") Aborted.image_list 5000
           Aborted.dataset _ _ H1 (H2 _)).
Defined.

(** ** A write frequency of zero *)



(** ** A negative write frequency *)

Section Sign.

Variable files : string -> option string.
Variable lmdb_ok : list event -> event -> bool.

Lemma mod_opp_zero (a b : Z) : (a mod - b =? 0)%Z = (a mod b =? 0)%Z.
Proof.
  destruct (Z.eq_dec b 0%Z) as [-> | Hb]; [reflexivity|].
  destruct (Z.eqb_spec (a mod b) 0%Z) as [H | H].
  - apply Z.eqb_eq. apply Z.mod_divide in H; [|exact Hb].
    apply Z.mod_divide; [lia|]. exact (proj2 (Z.divide_opp_l b a) H).
  - apply Z.eqb_neq. intros H'. apply H.
    apply Z.mod_divide in H'; [|lia].
    apply Z.mod_divide; [exact Hb|]. exact (proj1 (Z.divide_opp_l b a) H').
Qed.

Lemma maybe_commit_opp write_frequency idx log :
  maybe_commit lmdb_ok (- write_frequency) idx log
  = maybe_commit lmdb_ok write_frequency idx log.
Proof.
  unfold maybe_commit. rewrite mod_opp_zero.
  replace (- write_frequency =? 0)%Z with (write_frequency =? 0)%Z; [reflexivity|].
  destruct (Z.eqb_spec write_frequency 0%Z), (Z.eqb_spec (- write_frequency) 0%Z);
    try reflexivity; lia.
Qed.

Lemma write_loop_opp self write_frequency idxs log :
  write_loop files lmdb_ok self (- write_frequency) idxs log
  = write_loop files lmdb_ok self write_frequency idxs log.
Proof.
  revert log. induction idxs as [|idx rest IH]; intros log; simpl; [reflexivity|].
  unfold bind. destruct (ImageListRaw_getitem files self idx log) as [l1 [d|e]];
    [|reflexivity].
  destruct (put_record lmdb_ok idx d l1) as [l2 [u|e]]; [|reflexivity].
  rewrite maybe_commit_opp.
  destruct (maybe_commit lmdb_ok write_frequency idx l2) as [l3 [u'|e]];
    [apply IH | reflexivity].
Qed.

End Sign.

(** X8. The commit schedule depends on the write frequency only through
    its absolute value: [idx % write_frequency == 0] holds for a negative
    frequency exactly when it holds for its opposite, so the two runs are
    the same run. *)
Theorem X8_negative_write_frequency
    (files : string -> option string) (lmdb_ok : list event -> event -> bool)
    (attribute_name : string) (source mask_source : option string)
    (image_list : list row) (write_frequency : Z) (log : list event) :
  list2lmdb files lmdb_ok attribute_name source mask_source image_list
    (- write_frequency) log
  = list2lmdb files lmdb_ok attribute_name source mask_source image_list
      write_frequency log.
Proof.
  unfold list2lmdb, lift. unfold bind at 1 2.
  destruct (ImageListRaw_init attribute_name source mask_source image_list)
    as [self|e]; [|reflexivity].
  unfold write_db, bind.
  destruct (lmdb lmdb_ok (EOpen (map_size self mask_source)) log) as [l1 [u|e]];
    [|reflexivity].
  destruct (lmdb lmdb_ok EBegin l1) as [l2 [u'|e]]; [|reflexivity].
  now rewrite write_loop_opp.
Qed.

(** ** The size of the transactions *)

Section Sizes.

Variable files : string -> option string.

Lemma staged_at_bound write_frequency a :
  (1 <= write_frequency)%Z ->
  (0 <= staged_at write_frequency a < write_frequency)%Z.
Proof.
  intros Hw. destruct a as [|a']; simpl; [lia|].
  apply Z.mod_pos_bound. lia.
Qed.

Lemma staged_at_succ write_frequency a :
  (1 <= write_frequency)%Z ->
  (Z.of_nat a mod write_frequency =? 0)%Z = false ->
  staged_at write_frequency (S a) = (staged_at write_frequency a + 1)%Z.
Proof.
  intros Hw Hne. apply Z.eqb_neq in Hne.
  destruct a as [|a']; [now rewrite Z.mod_0_l in Hne by lia|].
  simpl staged_at. simpl staged_at in *.
  replace (Z.of_nat (S a')) with (Z.of_nat a' + 1)%Z in * by lia.
  pose proof (Z.mod_pos_bound (Z.of_nat a') write_frequency ltac:(lia)) as Hb.
  rewrite <- Z.add_mod_idemp_l in Hne |- * by lia.
  destruct (Z.eq_dec (Z.of_nat a' mod write_frequency + 1)%Z write_frequency)
    as [E | E].
  - rewrite E, Z.mod_same in Hne by lia. now destruct Hne.
  - apply Z.mod_small. lia.
Qed.

(** While the loop runs, no committed transaction holds more records than
    the write frequency, and the open one holds [staged_at] of them. *)
Lemma replay_sizes self write_frequency n a st :
  (1 <= write_frequency)%Z ->
  Forall (fun idx => is_Some (record_at files self idx)) (seq a n) ->
  Forall (fun b => (Z.of_nat (length b) <= write_frequency)%Z) st.1 ->
  Z.of_nat (length st.2) = staged_at write_frequency a ->
  let st' := foldl txn_step st
               (flat_map (record_events files self write_frequency) (seq a n)) in
  Forall (fun b => (Z.of_nat (length b) <= write_frequency)%Z) st'.1
  /\ Z.of_nat (length st'.2) = staged_at write_frequency (a + n).
Proof.
  intros Hw. revert a st. induction n as [|n IH]; intros a st Hall Hbs Hcur; simpl.
  { now rewrite Nat.add_0_r. }
  inversion Hall as [|? ? [[[p mp] obj] Hrec] Hall']; subst.
  rewrite foldl_app, (record_events_Some files _ write_frequency _ _ _ _ Hrec).
  replace (a + S n)%nat with (S a + n)%nat by lia.
  apply IH; [exact Hall' | |];
    rewrite foldl_app; destruct st as [bs cur]; simpl in *; unfold commit_events;
    destruct (Z.of_nat a mod write_frequency =? 0)%Z eqn:Hm; simpl.
  - apply Forall_app. split; [exact Hbs|]. constructor; [|constructor].
    rewrite length_app. simpl.
    pose proof (staged_at_bound write_frequency a Hw). lia.
  - exact Hbs.
  - apply Z.eqb_eq in Hm. now rewrite Hm.
  - change (Z.of_nat a mod write_frequency)%Z
      with (staged_at write_frequency (S a)).
    rewrite length_app, (staged_at_succ _ _ Hw Hm). simpl. lia.
Qed.

Lemma replay_grows (l : list event) st :
  exists more, (foldl txn_step st l).1 = (st.1 ++ more)%list.
Proof.
  revert st. induction l as [|e l IH]; intros st; simpl.
  { exists []. now rewrite app_nil_r. }
  destruct (IH (txn_step st e)) as [more ->].
  destruct st as [bs cur], e; simpl; eauto.
  exists ([cur] ++ more)%list. now rewrite app_assoc.
Qed.

End Sizes.

(** X9. In a successful run with write frequency [w >= 1], the first
    transaction committed holds the record of index 0 alone, no transaction
    of data records holds more than [w] of them, and the last transaction
    is the one of the three metadata entries. *)
Theorem X9_transaction_sizes
    (files : string -> option string) (lmdb_ok : list event -> event -> bool)
    (attribute_name : string) (source mask_source : option string)
    (image_list : list row) (write_frequency : Z) (log : list event) :
  (1 <= write_frequency)%Z ->
  list2lmdb files lmdb_ok attribute_name source mask_source image_list
    write_frequency [] = (log, OK tt) ->
  exists obj data k1 k2 k3,
    batches log
    = ([(Py.format_idx 0, obj)] :: data
       ++ [[("__keys__", k1); ("__len__", k2); ("__classnum__", k3)]])%list
    /\ Forall (fun b => (Z.of_nat (length b) <= write_frequency)%Z) data.
Proof.
  intros Hw Hrun.
  apply success_log in Hrun
    as (self & attribute & max_class & _ & B & -> & Hall & _).
  pose proof (built_from_nonempty _ _ _ _ _ _ _ B) as HN.
  unfold batches, data_phase, finalization.
  change ([EOpen (map_size self mask_source); EBegin] ++ ?l)%list
    with (EOpen (map_size self mask_source) :: EBegin :: l).
  rewrite foldl_app. cbn [foldl txn_step fst snd]. rewrite foldl_app.
  pose proof (replay_sizes files self write_frequency _ 0%nat ([], []) Hw Hall
                ltac:(constructor) eq_refl) as [Hbs Hcur].
  destruct (ImageListRaw_len self) as [|n] eqn:HL; [lia|].
  revert Hbs Hcur. cbn [seq flat_map Nat.add]. rewrite foldl_app.
  inversion Hall as [|? ? [[[p mp] obj] Hrec] Hall']; subst.
  rewrite (record_events_Some files _ write_frequency _ _ _ _ Hrec).
  unfold commit_events. rewrite Z.mod_0_l by lia. cbn [Z.eqb app foldl txn_step fst snd].
  destruct (replay_grows
              (flat_map (record_events files self write_frequency) (seq 1 n))
              ([[(Py.format_idx 0, obj)]], [])) as [more Hmore].
  destruct (foldl txn_step _ (flat_map _ (seq 1 n))) as [bs cur].
  simpl in Hmore. subst bs. intros Hbs Hcur. simpl.
  eexists obj, (more ++ [cur])%list, _, _, _. split.
  - rewrite <- !app_assoc. reflexivity.
  - simpl in Hbs. inversion Hbs as [|? ? _ Hmore']; subst.
    apply Forall_app. split; [exact Hmore'|]. constructor; [|constructor].
    simpl in Hcur. rewrite Hcur.
    pose proof (Z.mod_pos_bound (Z.of_nat n) write_frequency ltac:(lia)). lia.
Qed.

Lemma X9_transaction_sizes_witness :
  (1 <= 2)%Z
  /\ exists obj data k1 k2 k3,
       batches
         (list2lmdb Five.files Demo.lmdb_ok "gender" (Some "/img") (Some "/msk")
            Five.image_list 2 []).1
       = ([(Py.format_idx 0, obj)] :: data
          ++ [[("__keys__", k1); ("__len__", k2); ("__classnum__", k3)]])%list
       /\ Forall (fun b => (Z.of_nat (length b) <= 2)%Z) data.
Proof.
  assert (H1 : (1 <= 2)%Z) by lia.
  assert (H2 : list2lmdb Five.files Demo.lmdb_ok "gender" (Some "/img") (Some "/msk")
                 Five.image_list 2 []
               = ((list2lmdb Five.files Demo.lmdb_ok "gender" (Some "/img")
                     (Some "/msk") Five.image_list 2 []).1, OK tt))
    by (vm_compute; reflexivity).
  split; [exact H1|].
  exact (X9_transaction_sizes Five.files Demo.lmdb_ok "gender" (Some "/img")
           (Some "/msk") Five.image_list 2 _ H1 H2).
Defined.

(** ** The first file that cannot be read *)

Section Unreadable.

Variable files : string -> option string.
Variable lmdb_ok : list event -> event -> bool.
Hypothesis lmdb_always : forall log e, lmdb_ok log e = true.



End Unreadable.



(** ** A write frequency that covers the whole dataset *)

Lemma replay_uncommitted (files : string -> option string) self write_frequency
    (idxs : list nat) bs cur :
  Forall (fun idx => (0 < Z.of_nat idx < write_frequency)%Z) idxs ->
  Forall (fun idx => is_Some (record_at files self idx)) idxs ->
  foldl txn_step (bs, cur) (flat_map (record_events files self write_frequency) idxs)
  = (bs, (cur ++ omap (record_of files self) idxs)%list).
Proof.
  intros Hr Hall. revert cur.
  induction Hall as [|idx idxs [[[p mp] obj] Hrec] _ IH]; intros cur; simpl.
  { now rewrite app_nil_r. }
  inversion Hr as [|? ? Hidx Hr']; subst.
  rewrite foldl_app, (record_events_Some files _ write_frequency _ _ _ _ Hrec).
  unfold commit_events. rewrite Z.mod_small by lia.
  destruct (Z.eqb_spec (Z.of_nat idx) 0) as [E | _]; [lia|].
  simpl. rewrite (IH Hr'). unfold record_of at 2. rewrite Hrec.
  now rewrite <- app_assoc.
Qed.

(** X12. When the write frequency is at least the number N of records, as
    the default of 5000 is for any dataset of up to 5000 records, a
    successful run commits exactly three transactions with puts: the
    record of index 0 alone, then the records of the indices 1 .. N-1
    together in the commit that follows the loop, then the metadata. *)
Theorem X12_frequency_covers_dataset
    (files : string -> option string) (lmdb_ok : list event -> event -> bool)
    (attribute_name : string) (source mask_source : option string)
    (image_list : list row) (write_frequency : Z)
    (self : ImageListRaw) (log : list event) :
  ImageListRaw_init attribute_name source mask_source image_list = OK self ->
  (Z.of_nat (ImageListRaw_len self) <= write_frequency)%Z ->
  list2lmdb files lmdb_ok attribute_name source mask_source image_list
    write_frequency [] = (log, OK tt) ->
  let N := ImageListRaw_len self in
  batches log
  = [omap (record_of files self) [0%nat];
     omap (record_of files self) (seq 1 (N - 1));
     [("__keys__", PyList (map Py.format_idx (seq 0 N)));
      ("__len__", PyInt (Z.of_nat N));
      ("__classnum__", PyInt (classnum self))]]
  /\ length (omap (record_of files self) [0%nat]) = 1%nat
  /\ length (omap (record_of files self) (seq 1 (N - 1))) = (N - 1)%nat.
Proof.
  intros Hinit HN Hrun N.
  apply success_log in Hrun
    as (self' & attribute & max_class & Hinit' & B & -> & Hall & _).
  rewrite Hinit in Hinit'. injection Hinit' as <-.
  pose proof (built_from_nonempty _ _ _ _ _ _ _ B) as H1. fold N in H1, Hall, HN.
  assert (Hseq : seq 0 N = 0%nat :: seq 1 (N - 1)).
  { destruct N as [|n]; [lia|]. simpl. now rewrite Nat.sub_0_r. }
  rewrite Hseq in Hall.
  inversion Hall as [|? ? [[[p mp] obj] Hrec] Hall']; subst.
  assert (Hr0 : omap (record_of files self) [0%nat] = [(Py.format_idx 0, obj)]).
  { simpl. unfold record_of. now rewrite Hrec. }
  split; [|split].
  - unfold batches, data_phase, finalization. fold N. rewrite Hseq.
    change ([EOpen (map_size self mask_source); EBegin] ++ ?l)%list
      with (EOpen (map_size self mask_source) :: EBegin :: l).
    rewrite foldl_app. cbn [foldl txn_step fst snd]. rewrite foldl_app.
    cbn [flat_map]. rewrite foldl_app.
    rewrite (record_events_Some files _ write_frequency _ _ _ _ Hrec).
    unfold commit_events. rewrite Z.mod_0_l by lia.
    cbn [Z.eqb app foldl txn_step fst snd].
    rewrite (replay_uncommitted files self write_frequency (seq 1 (N - 1))).
    + cbn [fst snd app]. rewrite Hr0. unfold data_keys. now rewrite Hseq.
    + apply List.Forall_forall. intros idx Hidx. apply in_seq in Hidx. lia.
    + exact Hall'.
  - now rewrite Hr0.
  - rewrite <- (length_map fst), (records_keys files self _ Hall').
    now rewrite length_map, length_seq.
Qed.

Lemma X12_frequency_covers_dataset_witness :
  let log :=
    (list2lmdb Demo.files Demo.lmdb_ok "gender" (Some "/img") (Some "/msk")
       Demo.image_list 5000 []).1 in
  let self := {| samples := ["/img/a.jpg"; "/img/b.jpg"];
                 masks := MasksList ["/msk/a_mask.png"; "/msk/b_mask.png"];
                 targets := [0; 1]%Z; classnum := 2 |} in
  (2 <= 5000)%Z
  /\ batches log
     = [omap (record_of Demo.files self) [0%nat];
        omap (record_of Demo.files self) (seq 1 (2 - 1));
        [("__keys__", PyList (map Py.format_idx (seq 0 2)));
         ("__len__", PyInt 2);
         ("__classnum__", PyInt (classnum self))]]
  /\ length (omap (record_of Demo.files self) [0%nat]) = 1%nat
  /\ length (omap (record_of Demo.files self) (seq 1 (2 - 1))) = (2 - 1)%nat.
Proof.
  assert (H1 : (Z.of_nat 2 <= 5000)%Z) by (vm_compute; discriminate).
  split; [exact H1|].
  exact (X12_frequency_covers_dataset Demo.files Demo.lmdb_ok
           "gender" (Some "/img") (Some "/msk") Demo.image_list 5000
           {| samples := ["/img/a.jpg"; "/img/b.jpg"];
              masks := MasksList ["/msk/a_mask.png"; "/msk/b_mask.png"];
              targets := [0; 1]%Z; classnum := 2 |}
           _ eq_refl H1 eq_refl).
Defined.

(** ** Bounds of the class count *)

(** X14. The class count of a dataset object lies between 1 and 5 for
    [race], between 1 and 2 for [gender], between 0 and 100 for [age]; for
    [recognition] it is at least 1 unless the largest label is 2^63 - 1,
    where it is -2^63. *)
Theorem X14_classnum_bounds
    (attribute_name : string) (source mask_source : option string)
    (image_list : list row) (self : ImageListRaw) :
  ImageListRaw_init attribute_name source mask_source image_list = OK self ->
  (attribute_name = "race" -> (1 <= classnum self <= 5)%Z)
  /\ (attribute_name = "gender" -> (1 <= classnum self <= 2)%Z)
  /\ (attribute_name = "age" -> (0 <= classnum self <= 100)%Z)
  /\ (attribute_name = "recognition" ->
      (1 <= classnum self <= int64_max)%Z
      \/ (classnum self = int64_min /\ In int64_max (targets self))).
Proof.
  intros Hinit.
  destruct (ImageListRaw_init_OK _ _ _ _ _ Hinit) as (attribute & max_class & B).
  destruct (bf_classnum _ _ _ _ _ _ _ B) as (m & Hm & Hc).
  destruct (np_max_OK _ _ Hm) as [Hin _].
  pose proof (bf_in_range _ _ _ _ _ _ _ B) as Hr.
  rewrite List.Forall_forall in Hr. specialize (Hr _ Hin).
  unfold in_range in Hr. apply andb_true_iff in Hr as [H0 Hb].
  assert (Hhi : (m <= int64_max)%Z).
  { destruct (Forall2_In_r _ _ _ _ (bf_targets _ _ _ _ _ _ _ B) Hin) as (r & _ & Hl).
    apply label_of_int64 in Hl. lia. }
  pose proof (bf_attribute _ _ _ _ _ _ _ B) as Ha.
  pose proof (bf_max_class _ _ _ _ _ _ _ B) as Hx.
  assert (Hsmall : (m < int64_max)%Z -> wrap64 (m + 1) = (m + 1)%Z).
  { intros Hlt. apply wrap64_small. unfold int64_min, int64_max in *. lia. }
  unfold int64_max in *.
  split; [|split; [|split]]; intros ->; simpl in Hc;
    destruct (ATTRIBUTES_cases _ _ _ Ha Hx)
      as [(E & _ & ->) | [(E & _ & ->) | [(E & _ & ->) | (E & _ & ->)]]];
    try discriminate E; simpl in Hb.
  - rewrite Hc, Hsmall; lia.
  - rewrite Hc, Hsmall; lia.
  - rewrite Hc. lia.
  - destruct (Z.eq_dec m (2 ^ 63 - 1)%Z) as [-> | Hne].
    + right. split; [rewrite Hc; reflexivity | exact Hin].
    + left. rewrite Hc, Hsmall; lia.
Qed.

Lemma X14_classnum_bounds_witness :
  let self := {| samples := ["/img/a.jpg"; "/img/b.jpg"];
                 masks := MasksList ["/msk/a_mask.png"; "/msk/b_mask.png"];
                 targets := [0; 1]%Z; classnum := 2 |} in
  ("gender" = "race" -> (1 <= classnum self <= 5)%Z)
  /\ ("gender" = "gender" -> (1 <= classnum self <= 2)%Z)
  /\ ("gender" = "age" -> (0 <= classnum self <= 100)%Z)
  /\ ("gender" = "recognition" ->
      (1 <= classnum self <= int64_max)%Z
      \/ (classnum self = int64_min /\ In int64_max (targets self))).
Proof.
  exact (X14_classnum_bounds "gender" (Some "/img") (Some "/msk") Demo.image_list
           {| samples := ["/img/a.jpg"; "/img/b.jpg"];
              masks := MasksList ["/msk/a_mask.png"; "/msk/b_mask.png"];
              targets := [0; 1]%Z; classnum := 2 |} eq_refl).
Defined.
